(** * Bitmymoney PSP client: signing protocol and request plumbing

    A shallow embedding of [bitmm/psp/client.py] (Python 2) together with the
    properties of its request signing, response verification, amount
    validation and transport-error mapping.

    Conventions of the embedding:
    - Python 2 [str] values are byte strings, modelled by [string].  JSON text
      decodes to [unicode] objects; ASCII [unicode] and [str] objects with the
      same characters compare equal, hash equal and have the same [str()], and
      they are identified here.  Non-ASCII text, floats and nested containers
      are outside the value universe [pyval].
    - dictionaries are [gmap string pyval];
    - exceptions are values of [exn], carried by a state-and-error monad whose
      state is the HTTP transport (queued responses, log of requests sent);
    - [hmac] and [hashlib.sha256] are embedded in full (FIPS 180-4, RFC 2104);
      the JSON decoder and [decimal.Decimal] are library functions taken as
      section variables. *)

From Stdlib Require Import NArith ZArith String Ascii List Lia Bool DecimalString.
From stdpp Require Import gmap strings list fin_maps.

(** ** hashlib.sha256 *)

Module SHA256.
Local Open Scope N_scope.

Definition w32 : N := 4294967296.

Definition add32 (x y : N) : N := (x + y) mod w32.

Definition rotr (n x : N) : N :=
  N.lor (N.shiftr x n) ((N.shiftl x (32 - n)) mod w32).

Definition Ch (x y z : N) : N :=
  N.lxor (N.land x y) (N.land (N.lxor x (w32 - 1)) z).

Definition Maj (x y z : N) : N :=
  N.lxor (N.lxor (N.land x y) (N.land x z)) (N.land y z).

Definition bsig0 (x : N) : N := N.lxor (N.lxor (rotr 2 x) (rotr 13 x)) (rotr 22 x).
Definition bsig1 (x : N) : N := N.lxor (N.lxor (rotr 6 x) (rotr 11 x)) (rotr 25 x).
Definition ssig0 (x : N) : N := N.lxor (N.lxor (rotr 7 x) (rotr 18 x)) (N.shiftr x 3).
Definition ssig1 (x : N) : N := N.lxor (N.lxor (rotr 17 x) (rotr 19 x)) (N.shiftr x 10).

(** The constants are fractional parts of roots of the first primes
    (FIPS 180-4, sections 4.2.2 and 5.3.3): thirty-two bits of the cube roots
    for the round constants, of the square roots for the initial value. *)
Definition primes : list N :=
  [2; 3; 5; 7; 11; 13; 17; 19; 23; 29; 31; 37; 41; 43; 47; 53; 59; 61; 67; 71;
   73; 79; 83; 89; 97; 101; 103; 107; 109; 113; 127; 131; 137; 139; 149; 151;
   157; 163; 167; 173; 179; 181; 191; 193; 197; 199; 211; 223; 227; 229; 233;
   239; 241; 251; 257; 263; 269; 271; 277; 281; 283; 293; 307; 311].

(** Integer cube root, one bit at a time from bit [bits - 1] down. *)
Fixpoint cube_root (bits : nat) (x r : N) : N :=
  match bits with
  | O => r
  | S b =>
      let r' := r + N.shiftl 1 (N.of_nat b) in
      cube_root b x (if r' * r' * r' <=? x then r' else r)
  end.

Definition frac_cube_root (p : N) : N := cube_root 36 (N.shiftl p 96) 0 mod w32.
Definition frac_square_root (p : N) : N := N.sqrt (N.shiftl p 64) mod w32.

Definition K : list N := Eval vm_compute in map frac_cube_root primes.

(** The eight working variables / the chaining value. *)
Record state := mkState { sa : N; sb : N; sc : N; sd : N; se : N; sf : N; sg : N; sh : N }.

Definition H0 : state :=
  Eval vm_compute in
  mkState (frac_square_root 2) (frac_square_root 3) (frac_square_root 5)
          (frac_square_root 7) (frac_square_root 11) (frac_square_root 13)
          (frac_square_root 17) (frac_square_root 19).

(** Message schedule: [win] holds the sixteen most recent words, oldest
    first; [schedule n win] lists the next [n] words. *)
Fixpoint schedule (n : nat) (win : list N) : list N :=
  match n with
  | O => []
  | S n' =>
      let wt := add32 (add32 (ssig1 (nth 14 win 0)) (nth 9 win 0))
                      (add32 (ssig0 (nth 1 win 0)) (nth 0 win 0)) in
      wt :: schedule n' (tl win ++ [wt])
  end.

Definition round (s : state) (kw : N * N) : state :=
  let t1 := add32 (add32 (add32 (sh s) (bsig1 (se s)))
                         (add32 (Ch (se s) (sf s) (sg s)) (fst kw))) (snd kw) in
  let t2 := add32 (bsig0 (sa s)) (Maj (sa s) (sb s) (sc s)) in
  mkState (add32 t1 t2) (sa s) (sb s) (sc s) (add32 (sd s) t1) (se s) (sf s) (sg s).

(** One 512-bit block, given as sixteen big-endian words. *)
Definition compress (h : state) (blk : list N) : state :=
  let ws := blk ++ schedule 48 blk in
  let s := fold_left round (combine K ws) h in
  mkState (add32 (sa h) (sa s)) (add32 (sb h) (sb s))
          (add32 (sc h) (sc s)) (add32 (sd h) (sd s))
          (add32 (se h) (se s)) (add32 (sf h) (sf s))
          (add32 (sg h) (sg s)) (add32 (sh h) (sh s)).

(** Big-endian bytes of [x], [n] of them. *)
Fixpoint be_bytes (n : nat) (x : N) : list N :=
  match n with
  | O => []
  | S n' => (N.shiftr x (8 * N.of_nat n')) mod 256 :: be_bytes n' x
  end.

Fixpoint be_words (bs : list N) : list N :=
  match bs with
  | b0 :: b1 :: b2 :: b3 :: rest =>
      (((b0 * 256 + b1) * 256 + b2) * 256 + b3) :: be_words rest
  | _ => []
  end.

(** Padding of section 5.1.1: a 1 bit, zeros up to 56 mod 64 bytes, and the
    bit length on eight bytes. *)
Definition pad (msg : list N) : list N :=
  let len := List.length msg in
  let zeros := ((119 - len mod 64) mod 64)%nat in
  msg ++ 128 :: repeat 0 zeros ++ be_bytes 8 (8 * N.of_nat len).

Fixpoint blocks (n : nat) (h : state) (ws : list N) : state :=
  match n with
  | O => h
  | S n' => blocks n' (compress h (firstn 16 ws)) (skipn 16 ws)
  end.

Definition digest (msg : list N) : list N :=
  let ws := be_words (pad msg) in
  let h := blocks (List.length ws / 16) H0 ws in
  be_bytes 4 (sa h) ++ be_bytes 4 (sb h) ++ be_bytes 4 (sc h) ++ be_bytes 4 (sd h) ++
  be_bytes 4 (se h) ++ be_bytes 4 (sf h) ++ be_bytes 4 (sg h) ++ be_bytes 4 (sh h).

End SHA256.

(** ** Byte strings, hex digests *)

Definition bytes_of_string (s : string) : list N :=
  map N_of_ascii (list_ascii_of_string s).

Definition hex_digit (n : N) : ascii :=
  ascii_of_N (if (n <? 10)%N then 48 + n else 87 + n)%N.

(** [hexdigest()]: two lowercase hexadecimal digits per byte. *)
Fixpoint hexlify (bs : list N) : string :=
  match bs with
  | [] => EmptyString
  | b :: rest => String (hex_digit (b / 16)%N) (String (hex_digit (b mod 16)%N) (hexlify rest))
  end.

Definition sha256_hexdigest (s : string) : string :=
  hexlify (SHA256.digest (bytes_of_string s)).

(** ** hmac.new(key, msg, hashlib.sha256) *)

Module HMAC.

Definition blocksize : nat := 64.

Definition xor_with (c : N) (bs : list N) : list N := map (N.lxor c) bs.

(** Keys longer than a block are hashed first; the key is then padded with
    zero bytes to the block size. *)
Definition block_key (key : list N) : list N :=
  let k := if (blocksize <? List.length key)%nat then SHA256.digest key else key in
  k ++ repeat 0%N (blocksize - List.length k).

Definition digest (key msg : list N) : list N :=
  let k := block_key key in
  let inner := SHA256.digest (xor_with 0x36%N k ++ msg) in
  SHA256.digest (xor_with 0x5C%N k ++ inner).

End HMAC.

(** [hmac.new(key, msg, hashlib.sha256).hexdigest()] *)
Definition hmac_sha256_hex (key msg : string) : string :=
  hexlify (HMAC.digest (bytes_of_string key) (bytes_of_string msg)).

(** ** Python values *)

Inductive pyval :=
| VNone
| VBool (b : bool)
| VInt (z : Z)
| VStr (s : string).

#[global] Instance pyval_eq_dec : EqDecision pyval.
Proof. solve_decision. Defined.

(** The top level of a decoded JSON document: an object, or a bare value. *)
Inductive jval :=
| JObj (d : gmap string pyval)
| JVal (v : pyval).

Definition str_of_Z (z : Z) : string :=
  DecimalString.NilZero.string_of_int (Z.to_int z).

(** [str(v)] *)
Definition py_str (v : pyval) : string :=
  match v with
  | VNone => "None"
  | VBool true => "True"
  | VBool false => "False"
  | VInt z => str_of_Z z
  | VStr s => s
  end.

(** Truth value of [v], as tested by [or] and [if]. *)
Definition py_truthy (v : pyval) : bool :=
  match v with
  | VNone => false
  | VBool b => b
  | VInt z => negb (z =? 0)%Z
  | VStr s => negb (String.eqb s "")
  end.

(** [a == b] for a [str] object [a]: numbers and [None] never equal text. *)
Definition py_str_eq (a : string) (b : pyval) : bool :=
  match b with
  | VStr s => String.eqb a s
  | _ => false
  end.

(** [repr(s)] of a byte string (CPython 2 [PyString_Repr]): single quotes
    unless the text has a single quote and no double quote; backslash and the
    quote are escaped, TAB/LF/CR have letters, other bytes outside
    [0x20, 0x7f) print as [\xNN]. *)
Definition LF : ascii := ascii_of_N 10.
Definition squote : ascii := ascii_of_N 39.
Definition dquote : ascii := ascii_of_N 34.
Definition bslash : ascii := ascii_of_N 92.

Fixpoint has_char (c : ascii) (s : string) : bool :=
  match s with
  | EmptyString => false
  | String c' s' => Ascii.eqb c c' || has_char c s'
  end.

Definition repr_quote (s : string) : ascii :=
  if has_char squote s && negb (has_char dquote s) then dquote else squote.

Definition repr_char (quote c : ascii) : string :=
  let n := N_of_ascii c in
  if Ascii.eqb c quote || Ascii.eqb c bslash then String bslash (String c "")
  else if (n =? 9)%N then String bslash "t"
  else if (n =? 10)%N then String bslash "n"
  else if (n =? 13)%N then String bslash "r"
  else if (n <? 32)%N || (127 <=? n)%N then
    String bslash (String "x" (String (hex_digit (n / 16)) (String (hex_digit (n mod 16)) "")))
  else String c "".

Fixpoint repr_body (quote : ascii) (s : string) : string :=
  match s with
  | EmptyString => EmptyString
  | String c s' => repr_char quote c +:+ repr_body quote s'
  end.

Definition py_repr_str (s : string) : string :=
  let q := repr_quote s in
  String q (repr_body q s +:+ String q "").

(** ** Exceptions and results *)

Inductive exn :=
| KeyError (key : string)
| TypeError
| AttributeError
| ValueError (message : string)
| ServerError (code : Z) (message : string) (body : string)
| InvalidSignature (arg : pyval)
| DecodeError          (* raised by the JSON decoder *)
| ConversionError      (* raised by decimal.Decimal *)
| TransportError.      (* raised by the HTTP transport *)

Inductive result (A : Type) :=
| Ok (a : A)
| Raise (e : exn).
Arguments Ok {A} a.
Arguments Raise {A} e.

Definition rbind {A B} (r : result A) (f : A -> result B) : result B :=
  match r with
  | Ok a => f a
  | Raise e => Raise e
  end.

(** ** The fragment of [re] used by the client *)

Module Re.

Inductive re :=
| Bol                          (* ^ *)
| Eol                          (* $ *)
| Cls (p : ascii -> bool)      (* one character of a class *)
| Plus (p : ascii -> bool)     (* class+, greedy *)
| Seq (r1 r2 : re)
| Opt (r : re).                (* (r)?, greedy *)

(** After a first character of the class: take more while possible, and
    fall back to the continuation at each shorter length. *)
Fixpoint more (p : ascii -> bool) (s : string) (k : bool -> string -> bool) : bool :=
  match s with
  | String c s' => (p c && more p s' k) || k false s
  | EmptyString => k false s
  end.

(** Backtracking matcher.  [bos] tells whether the position is the start of
    the subject; without the MULTILINE flag, [$] holds at the end of the
    subject and just before a newline that ends the subject. *)
Fixpoint step (r : re) (bos : bool) (s : string) (k : bool -> string -> bool) : bool :=
  match r with
  | Bol => bos && k bos s
  | Eol =>
      match s with
      | EmptyString => k bos s
      | String c EmptyString => Ascii.eqb c LF && k bos s
      | _ => false
      end
  | Cls p =>
      match s with
      | String c s' => p c && k false s'
      | EmptyString => false
      end
  | Plus p =>
      match s with
      | String c s' => p c && more p s' k
      | EmptyString => false
      end
  | Seq r1 r2 => step r1 bos s (fun b s' => step r2 b s' k)
  | Opt r1 => step r1 bos s k || k bos s
  end.

(** [pattern.match(s)]: a match anchored at the start of [s]. *)
Definition matches (r : re) (s : string) : bool :=
  step r true s (fun _ _ => true).

Definition digit (c : ascii) : bool :=
  let n := N_of_ascii c in (48 <=? n)%N && (n <=? 57)%N.

Definition dot (c : ascii) : bool := Ascii.eqb c ".".

End Re.

(** [_reg_decimal = re.compile('^\d+([.]\d+)?$')] *)
Definition _reg_decimal : Re.re :=
  Re.Seq Re.Bol
    (Re.Seq (Re.Plus Re.digit)
       (Re.Seq (Re.Opt (Re.Seq (Re.Cls Re.dot) (Re.Plus Re.digit))) Re.Eol)).

(** [PSPClient._normalize_amount] *)
Definition _normalize_amount (amount : pyval) : result string :=
  let amount := py_str amount in
  if negb (Re.matches _reg_decimal amount) then
    Raise (ValueError ("could not parse amount " +:+ py_repr_str amount +:+
                       ", must be a positive decimal"))
  else Ok amount.

(** The amount syntax of the protocol, [digits[.digits]]: a non-empty run of
    digits, optionally followed by a dot and a non-empty run of digits, and
    nothing else. *)
Fixpoint span_digits (s : string) : string * string :=
  match s with
  | String c s' =>
      if Re.digit c then let (i, r) := span_digits s' in (String c i, r)
      else (EmptyString, s)
  | EmptyString => (EmptyString, EmptyString)
  end.

Fixpoint all_digits (s : string) : bool :=
  match s with
  | String c s' => Re.digit c && all_digits s'
  | EmptyString => true
  end.

Definition nonempty (s : string) : bool :=
  match s with EmptyString => false | _ => true end.

Definition valid_decimal (s : string) : bool :=
  let (i, r) := span_digits s in
  nonempty i &&
  match r with
  | EmptyString => true
  | String c f => Re.dot c && nonempty f && all_digits f
  end.


(** ** The HTTP transport *)

Record response := mkResponse {
  status_code : Z;
  reason : string;
  text : string
}.

Record request := mkRequest {
  req_verb : string;
  req_url : string;
  req_params : gmap string pyval
}.

(** The world outside the client: the responses the server is going to give,
    in order, and the requests issued so far. *)
Record net := mkNet {
  pending : list response;
  sent : list request
}.

Definition M (A : Type) : Type := net -> result A * net.

Definition ret {A} (a : A) : M A := fun n => (Ok a, n).
Definition raise {A} (e : exn) : M A := fun n => (Raise e, n).
Definition bind {A B} (c : M A) (f : A -> M B) : M B :=
  fun n => match c n with
           | (Ok a, n') => f a n'
           | (Raise e, n') => (Raise e, n')
           end.
Definition lift {A} (r : result A) : M A := fun n => (r, n).

Notation "'do' x <- c ; k" := (bind c (fun x => k))
  (at level 10, x name, c at level 100, k at level 200).

(** [str.lower()] *)
Definition lower_char (c : ascii) : ascii :=
  let n := N_of_ascii c in
  if (65 <=? n)%N && (n <=? 90)%N then ascii_of_N (n + 32) else c.

Fixpoint lower (s : string) : string :=
  match s with
  | EmptyString => EmptyString
  | String c s' => String (lower_char c) (lower s')
  end.

(** [getattr(requests, name)]: the request functions of the [requests]
    module, by verb, and the generic [requests.request]; any other name is
    treated as a missing attribute. *)
Definition request_verbs : list string :=
  ["get"; "post"; "put"; "delete"; "head"; "options"; "patch"]%string.

(** [reqfunc(url, params=data)]: the request is issued and the next response
    of the server comes back; with no response left the transport fails. *)
Definition http_request (verb url : string) (params : gmap string pyval) : M response :=
  fun n =>
    let log := sent n ++ [mkRequest verb url params] in
    match pending n with
    | r :: rest => (Ok r, mkNet rest log)
    | [] => (Raise TransportError, mkNet [] log)
    end.

(** [requests.request(method, url, **kwargs)] called as [reqfunc(url,
    params=data)]: the positional [url] is missing, a type error, and nothing
    is sent. *)
Definition request_misapplied (url : string) (params : gmap string pyval) : M response :=
  raise TypeError.

Definition getattr_requests (name : string) : M (string -> gmap string pyval -> M response) :=
  if existsb (String.eqb name) request_verbs then ret (http_request name)
  else if String.eqb name "request" then ret request_misapplied
  else raise AttributeError.

(** ** Signing *)

(** [for field in fields: signvalues.append(str(data[field]))] *)
Fixpoint sign_values (data : gmap string pyval) (fields : list string)
    (signvalues : list pyval) : result (list pyval) :=
  match fields with
  | [] => Ok signvalues
  | field :: rest =>
      match data !! field with
      | None => Raise (KeyError field)
      | Some v => sign_values data rest (signvalues ++ [VStr (py_str v)])
      end
  end.

(** [''.join(items)]: every item has to be text. *)
Fixpoint py_join (items : list pyval) : result string :=
  match items with
  | [] => Ok EmptyString
  | VStr s :: rest => rbind (py_join rest) (fun t => Ok (s +:+ t))
  | _ :: _ => Raise TypeError
  end.

(** The signature as the protocol describes it: HMAC-SHA256, keyed by the API
    key, of the string forms of the signed values in order followed by the
    nonce, as lowercase hexadecimal. *)
Definition sign_input (values : list pyval) (nonce : string) : string :=
  foldr (fun v acc => py_str v +:+ acc) nonce values.

Definition Sign (key : string) (values : list pyval) (nonce : string) : string :=
  hmac_sha256_hex key (sign_input values nonce).

(** ** The client *)

Record PSPClient := mkClient {
  apikey : string;
  base_url : string
}.

Definition BASE_URL : string := "http://localhost:8000/secure/pay".

Fixpoint endswith_slash (s : string) : bool :=
  match s with
  | EmptyString => false
  | String c EmptyString => Ascii.eqb c "/"
  | String _ s' => endswith_slash s'
  end.

Fixpoint drop_last (s : string) : string :=
  match s with
  | EmptyString => EmptyString
  | String _ EmptyString => EmptyString
  | String c s' => String c (drop_last s')
  end.

(** [PSPClient.__init__] *)
Definition PSPClient_init (apikey base_url : string) : PSPClient :=
  let base_url := if endswith_slash base_url then drop_last base_url else base_url in
  mkClient apikey base_url.

(** The value a verified status query returns under each key. *)
Inductive rval (dec : Type) :=
| RVal (v : pyval)
| RDec (d : dec).
Arguments RVal {dec} v.
Arguments RDec {dec} d.

Section Client.

(** [json.loads] on a response body; [None] when the decoder raises. *)
Variable json_loads : string -> option jval.

(** [decimal.Decimal(v)]; [None] when the constructor raises. *)
Variable dec : Type.
Variable Decimal : pyval -> option dec.

Variable self : PSPClient.

(** The signing prologue of [_call]: the parameters with the nonce removed
    and the signature attached. *)
Definition sign_params (sign_fields : list string) (data : gmap string pyval)
    : result (gmap string pyval) :=
  rbind (sign_values data sign_fields []) (fun signvalues =>
  let nonce := default (VStr "") (data !! "nonce") in
  let data := delete "nonce" data in
  let signvalues := signvalues ++ [if py_truthy nonce then nonce else VStr ""] in
  rbind (py_join signvalues) (fun msg =>
  let sign := hmac_sha256_hex (apikey self) msg in
  Ok (<["sign" := VStr sign]> data))).

(** [PSPClient._call] *)
Definition _call (path method : string) (sign_fields : list string)
    (kwargs : gmap string pyval) : M jval :=
  let data := kwargs in
  do data <- (match sign_fields with
           | [] => ret data
           | _ :: _ => lift (sign_params sign_fields data)
           end) ;
  do reqfunc <- getattr_requests (lower method) ;
  do response <- reqfunc (base_url self +:+ path) data ;
  if (status_code response <? 200)%Z || (400 <=? status_code response)%Z then
    raise (ServerError (status_code response) (reason response) (text response))
  else
    match json_loads (text response) with
    | Some j => ret j
    | None => raise DecodeError
    end.

(** [PSPClient._verify_signature].  Subscripting a decoded document that is
    not an object is a type error. *)
Definition _verify_signature (data : jval) (fields : list string) : result unit :=
  match data with
  | JVal _ =>
      match fields with
      | [] => Raise AttributeError
      | _ :: _ => Raise TypeError
      end
  | JObj data =>
      rbind (sign_values data fields []) (fun signvalues =>
      let signvalues := signvalues ++ [default (VStr "") (data !! "nonce")] in
      rbind (py_join signvalues) (fun msg =>
      let sign := hmac_sha256_hex (apikey self) msg in
      match data !! "sign" with
      | None => Raise (KeyError "sign")
      | Some received =>
          if negb (py_str_eq sign received) then Raise (InvalidSignature received)
          else Ok tt
      end))
  end.

Definition start_sign_fields : list string :=
  ["amount_eur"; "description"; "url_success"; "merchant_id"]%string.

Definition start_response_fields : list string :=
  ["url_pay"; "btc_address"; "url_qrcode"; "url_status"]%string.

Definition status_response_fields : list string :=
  ["status"; "amount_btc"; "amount_received"; "txid"]%string.

(** Keyword arguments of the [_call] made by [start]. *)
Definition start_kwargs (amount_eur : string)
    (description url_success callback_success merchant_id
     order_id url_failure callback_failure nonce : pyval) : gmap string pyval :=
  <["amount_eur" := VStr amount_eur]> (
  <["description" := description]> (
  <["url_success" := url_success]> (
  <["callback_success" := callback_success]> (
  <["merchant_id" := merchant_id]> (
  <["order_id" := order_id]> (
  <["url_failure" := url_failure]> (
  <["callback_failure" := callback_failure]> (
  <["nonce" := nonce]> ∅)))))))).

(** [PSPClient.start] *)
Definition start (amount_eur description url_success callback_success merchant_id
                  order_id url_failure callback_failure nonce : pyval) : M jval :=
  do amount_eur <- lift (_normalize_amount amount_eur) ;
  let sign_fields := start_sign_fields in
  do data <- _call "/start/" "GET" sign_fields
            (start_kwargs amount_eur description url_success callback_success
               merchant_id order_id url_failure callback_failure nonce) ;
  do verified <- lift (_verify_signature data start_response_fields) ;
  ret data.

(** [decimal.Decimal(v)] as the client calls it: [None] cannot be
    converted, a type error; where the constructor raises on another value it
    is the library's conversion error. *)
Definition decimal_of (v : pyval) : result dec :=
  match v with
  | VNone => Raise TypeError
  | _ =>
      match Decimal v with
      | Some d => Ok d
      | None => Raise ConversionError
      end
  end.

Definition to_decimal (v : pyval) : M dec := lift (decimal_of v).

(** [PSPClient.price_btc] *)
Definition price_btc (amount_eur : pyval) (decimals : Z) : M dec :=
  do amount_eur <- lift (_normalize_amount amount_eur) ;
  if (decimals <? 0)%Z then raise (ValueError "decimals must be a positive integer")
  else
    do quote <- _call "/price_btc/" "GET" []
               (<["amount_eur" := VStr amount_eur]> (<["decimals" := VInt decimals]> ∅)) ;
    match quote with
    | JVal v => to_decimal v
    | JObj _ => raise TypeError
    end.

(** [data[key]] *)
Definition getitem (data : gmap string pyval) (key : string) : M pyval :=
  match data !! key with
  | Some v => ret v
  | None => raise (KeyError key)
  end.

(** [PSPClient.transaction_status] *)
Definition transaction_status (txid nonce : pyval) : M (gmap string (rval dec)) :=
  do data <- _call ("/tx/" +:+ py_str txid +:+ "/status/") "GET" [] ∅ ;
  match data with
  | JVal _ => raise AttributeError        (* data.copy() *)
  | JObj d =>
      let sigdata := d in
      let sigdata := <["nonce" := nonce]> sigdata in
      do verified <- lift (_verify_signature data status_response_fields) ;
      do status <- getitem d "status" ;
      do amount_btc <- (do v <- getitem d "amount_btc" ; to_decimal v) ;
      do amount_received <- (do v <- getitem d "amount_received" ; to_decimal v) ;
      do txid <- getitem d "txid" ;
      do sign <- getitem d "sign" ;
      ret (<["status" := RVal status]> (
           <["amount_btc" := RDec amount_btc]> (
           <["amount_received" := RDec amount_received]> (
           <["txid" := RVal txid]> (
           <["sign" := RVal sign]> ∅)))))
  end.

End Client.

(** ** Specification-side helpers *)

(** The values of the designated fields, when all of them are present. *)
Fixpoint lookup_all (data : gmap string pyval) (fields : list string) : option (list pyval) :=
  match fields with
  | [] => Some []
  | field :: rest =>
      match data !! field with
      | None => None
      | Some v => option_map (cons v) (lookup_all data rest)
      end
  end.

(** The nonce text folded into a request signature: empty for a falsy nonce,
    the nonce itself when it is text; other values cannot be joined. *)
Definition nonce_text (nonce : pyval) : option string :=
  if py_truthy nonce then
    match nonce with
    | VStr s => Some s
    | _ => None
    end
  else Some EmptyString.

(** The nonce text folded into a response check: the response's own [nonce]
    entry, empty when there is none. *)
Definition verify_nonce (data : gmap string pyval) : option string :=
  match data !! "nonce" with
  | None => Some EmptyString
  | Some (VStr s) => Some s
  | Some _ => None
  end.

(** [$] at a position: end of subject, or before a final newline. *)
Definition at_eol (s : string) : bool :=
  match s with
  | EmptyString => true
  | String c EmptyString => Ascii.eqb c LF
  | _ => false
  end.

Definition in_range (code : Z) : bool := (200 <=? code)%Z && (code <? 400)%Z.

(** ** Fixtures: the scenarios of the test suite *)

Module Fixture.

Definition key : string := "1234567890".

Definition client : PSPClient := PSPClient_init key BASE_URL.

Definition start_values (btc_address : pyval) : list pyval :=
  [VStr "http://test.bitmymoney.com/tx/1234/"; btc_address;
   VStr "http://test.bitmymoney.com/tx/1234/qrcode.png";
   VStr "http://test.bitmymoney.com/tx/1234/status"].

(** A start response whose signature covers the address ["123456"]. *)
Definition start_sign : string := Sign key (start_values (VStr "123456")) "".

Definition start_data (btc_address : pyval) : gmap string pyval :=
  <["url_pay" := VStr "http://test.bitmymoney.com/tx/1234/"]> (
  <["btc_address" := btc_address]> (
  <["url_qrcode" := VStr "http://test.bitmymoney.com/tx/1234/qrcode.png"]> (
  <["url_status" := VStr "http://test.bitmymoney.com/tx/1234/status"]> (
  <["sign" := VStr start_sign]> ∅)))).

Definition status_values : list pyval :=
  [VStr "SUCCESS"; VStr "0.1"; VStr "0.1"; VStr "123456"].

Definition status_data (sign : string) : gmap string pyval :=
  <["status" := VStr "SUCCESS"]> (
  <["amount_btc" := VStr "0.1"]> (
  <["amount_received" := VStr "0.1"]> (
  <["txid" := VStr "123456"]> (
  <["sign" := VStr sign]> ∅)))).

(** The body of the quote response: the JSON string "1.10000", quotes
    included. *)
Definition quote_body : string := String dquote ("1.10000" +:+ String dquote EmptyString).

(** A decoder for the bodies used below; the bodies of the object responses
    are named by a tag. *)
Definition json_loads (body : string) : option jval :=
  if String.eqb body "start:ok" then Some (JObj (start_data (VStr "123456")))
  else if String.eqb body "start:address-as-number" then Some (JObj (start_data (VInt 123456)))
  else if String.eqb body "start:address-changed" then Some (JObj (start_data (VStr "123457")))
  else if String.eqb body "status:signed-plain" then
    Some (JObj (status_data (Sign key status_values "")))
  else if String.eqb body "status:signed-with-nonce" then
    Some (JObj (status_data (Sign key status_values "abc")))
  else if String.eqb body quote_body then Some (JVal (VStr "1.10000"))
  else None.

(** A stand-in for [decimal.Decimal] on plain literals [digits[.digits]]:
    coefficient and exponent. *)
Fixpoint digits_value (s : string) (acc : Z) : Z :=
  match s with
  | EmptyString => acc
  | String c s' => digits_value s' (10 * acc + (Z.of_N (N_of_ascii c) - 48))%Z
  end.

Definition Decimal (v : pyval) : option (Z * Z) :=
  match v with
  | VStr s =>
      if valid_decimal s then
        let (i, r) := span_digits s in
        match r with
        | EmptyString => Some (digits_value i 0, 0%Z)
        | String _ f => Some (digits_value (i +:+ f) 0, (- Z.of_nat (String.length f))%Z)
        end
      else None
  | _ => None
  end.

Definition ok_response (body : string) : response := mkResponse 200 "OK" body.

Definition net_with (r : response) : net := mkNet [r] [].

End Fixture.

(** Number of times a field is listed. *)
Fixpoint occurrences (f : string) (fields : list string) : nat :=
  match fields with
  | [] => O
  | g :: rest => if decide (g = f) then S (occurrences f rest) else occurrences f rest
  end.

(** What is left to match after the integer digits: [([.]\d+)?$]. *)
Definition decimal_tail (r : string) : bool :=
  match r with
  | String c (String c2 r') =>
      Re.dot c && Re.digit c2 && at_eol (snd (span_digits r'))
  | _ => false
  end || at_eol r.

(** The parameters [_call] transmits: the keyword arguments, signed when a
    signed-field set is given. *)
Definition call_params (self : PSPClient) (sign_fields : list string)
    (kwargs : gmap string pyval) : result (gmap string pyval) :=
  match sign_fields with
  | [] => Ok kwargs
  | _ :: _ => sign_params self sign_fields kwargs
  end.

(** How [_call] classifies a response. *)
Definition classify (json_loads : string -> option jval) (r : response) : result jval :=
  if in_range (status_code r) then
    match json_loads (text r) with
    | Some j => Ok j
    | None => Raise DecodeError
    end
  else Raise (ServerError (status_code r) (reason r) (text r)).

(** Result shaping of [transaction_status] on a verified object. *)
Definition status_result {dec : Type} (status : pyval) (amount_btc amount_received : dec)
    (txid sign : pyval) : gmap string (rval dec) :=
  <["status" := RVal status]> (
  <["amount_btc" := RDec amount_btc]> (
  <["amount_received" := RDec amount_received]> (
  <["txid" := RVal txid]> (
  <["sign" := RVal sign]> ∅)))).

(** ** The operations, uniformly *)

Inductive operation :=
| OpStart (amount_eur description url_success callback_success merchant_id
           order_id url_failure callback_failure nonce : pyval)
| OpPriceBtc (amount_eur : pyval) (decimals : Z)
| OpTransactionStatus (txid nonce : pyval).

Definition raised {A} (r : result A) : option exn :=
  match r with
  | Ok _ => None
  | Raise e => Some e
  end.

Section Run.

Variable json_loads : string -> option jval.
Variable dec : Type.
Variable Decimal : pyval -> option dec.
Variable self : PSPClient.

(** Result shaping of [transaction_status] once the signature is accepted. *)
Definition shape_status (d : gmap string pyval) : result (gmap string (rval dec)) :=
  match d !! "status" with
  | None => Raise (KeyError "status")
  | Some status =>
  match d !! "amount_btc" with
  | None => Raise (KeyError "amount_btc")
  | Some vb =>
  match decimal_of dec Decimal vb with
  | Raise e => Raise e
  | Ok amount_btc =>
  match d !! "amount_received" with
  | None => Raise (KeyError "amount_received")
  | Some vr =>
  match decimal_of dec Decimal vr with
  | Raise e => Raise e
  | Ok amount_received =>
  match d !! "txid" with
  | None => Raise (KeyError "txid")
  | Some txid =>
  match d !! "sign" with
  | None => Raise (KeyError "sign")
  | Some sign => Ok (status_result status amount_btc amount_received txid sign)
  end end end end end end end.

(** The exception an operation ends with, if any, and the transport after it. *)
Definition run_operation (o : operation) (n : net) : option exn * net :=
  match o with
  | OpStart a d us cs m o uf cf nonce =>
      let (r, n') := start json_loads self a d us cs m o uf cf nonce n in (raised r, n')
  | OpPriceBtc a decimals =>
      let (r, n') := price_btc json_loads dec Decimal self a decimals n in (raised r, n')
  | OpTransactionStatus txid nonce =>
      let (r, n') := transaction_status json_loads dec Decimal self txid nonce n in (raised r, n')
  end.

End Run.

Arguments hmac_sha256_hex : simpl never.
Arguments Sign : simpl never.
Arguments _normalize_amount : simpl never.
Arguments _verify_signature : simpl never.
Arguments _call : simpl never.
Arguments call_params : simpl never.
Arguments classify : simpl never.
Arguments shape_status : simpl never.
Arguments decimal_of : simpl never.

(** ** Further fixtures *)

Module Scenario.

(** A start response, signed over an empty nonce, that also carries
    ["nonce": null]. *)
Definition null_nonce_data : gmap string pyval :=
  <["nonce" := VNone]> (Fixture.start_data (VStr "123456")).

(** A start response with a numeric nonce entry and no [sign]. *)
Definition unsigned_data : gmap string pyval :=
  <["nonce" := VInt 5]> (delete "sign" (Fixture.start_data (VStr "123456"))).

(** An amount followed by a newline. *)
Definition amount_newline : string := String "1" (String LF EmptyString).

(** The call [start('10.00', 'Test', 'http://example.com/thankyou',
    'http://example.com/success_callback', 1)] of the test suite. *)
Definition start_call (json_loads : string -> option jval) (n : net) : result jval * net :=
  start json_loads Fixture.client (VStr "10.00") (VStr "Test")
    (VStr "http://example.com/thankyou") (VStr "http://example.com/success_callback")
    (VInt 1) VNone VNone VNone VNone n.

Definition status_call (nonce : pyval) (body : string)
    : result (gmap string (rval (Z * Z))) * net :=
  transaction_status Fixture.json_loads (Z * Z)%type Fixture.Decimal Fixture.client
    (VStr "123456") nonce (Fixture.net_with (Fixture.ok_response body)).


End Scenario.

(** ** Helpers for the properties of the remaining code *)

(** The first designated field that the mapping lacks, in the order of the
    field list. *)
Fixpoint first_missing (data : gmap string pyval) (fields : list string) : option string :=
  match fields with
  | [] => None
  | field :: rest =>
      match data !! field with
      | None => Some field
      | Some _ => first_missing data rest
      end
  end.

(** Characters that [repr] prints as they are and that do not affect its
    choice of quote: printable ASCII other than the quotes and the backslash. *)
Definition plain_char (c : ascii) : bool :=
  let n := N_of_ascii c in
  (32 <=? n)%N && (n <? 127)%N &&
  negb (Ascii.eqb c squote) && negb (Ascii.eqb c dquote) && negb (Ascii.eqb c bslash).

Fixpoint plain_text (s : string) : bool :=
  match s with
  | EmptyString => true
  | String c s' => plain_char c && plain_text s'
  end.

Definition single_quoted (s : string) : string :=
  String squote (s +:+ String squote EmptyString).

(** Lowercase hexadecimal digits. *)
Definition lower_hex_char (c : ascii) : bool :=
  let n := N_of_ascii c in
  ((48 <=? n)%N && (n <=? 57)%N) || ((97 <=? n)%N && (n <=? 102)%N).

Fixpoint lower_hex (s : string) : bool :=
  match s with
  | EmptyString => true
  | String c s' => lower_hex_char c && lower_hex s'
  end.

(** The [sign] parameter of the request issued last. *)
Definition last_request_sign (n : net) : option pyval :=
  match last (sent n) with
  | Some q => req_params q !! "sign"
  | None => None
  end.

Module Extra.

(** A start response in which the last character of btc_address moved to
    the front of url_qrcode; the signature is that of [Fixture.start_data]. *)
Definition shifted_data : gmap string pyval :=
  <["btc_address" := VStr "12345"]> (
  <["url_qrcode" := VStr "6http://test.bitmymoney.com/tx/1234/qrcode.png"]> (
  Fixture.start_data (VStr "123456"))).

Definition start_with (callback_success order_id nonce : pyval) (n : net) : result jval * net :=
  start Fixture.json_loads Fixture.client (VStr "10.00") (VStr "Test")
    (VStr "http://example.com/thankyou") callback_success (VInt 1)
    order_id VNone VNone nonce n.

Definition idle : net := mkNet [] [].

End Extra.

(** * Properties *)

(** Known answers: FIPS 180-4 examples and an HMAC-SHA256 vector. *)
Example sha256_empty :
  sha256_hexdigest "" =
  "e3b0c44298fc1c149afbf4c8996fb92427ae41e4649b934ca495991b7852b855"%string.
Proof. vm_compute. reflexivity. Qed.

Example sha256_abc :
  sha256_hexdigest "abc" =
  "ba7816bf8f01cfea414140de5dae2223b00361a396177a9cb410ff61f20015ad"%string.
Proof. vm_compute. reflexivity. Qed.

Example hmac_sha256_fox :
  hmac_sha256_hex "key" "The quick brown fox jumps over the lazy dog" =
  "f7bc83f430538424b13298e6aa6fb143ef4d59a14946175997479dbc2d1a3cd8"%string.
Proof. vm_compute. reflexivity. Qed.

(** ** Facts about byte strings *)

Lemma append_cons (c : ascii) (s t : string) : String c s +:+ t = String c (s +:+ t).
Proof. reflexivity. Qed.

Lemma append_nil_l (s : string) : "" +:+ s = s.
Proof. reflexivity. Qed.

Lemma append_nil_r (s : string) : s +:+ "" = s.
Proof. induction s as [|c s IH]; [reflexivity | now rewrite append_cons, IH]. Qed.

Lemma append_assoc (s t u : string) : (s +:+ t) +:+ u = s +:+ (t +:+ u).
Proof. induction s as [|c s IH]; [reflexivity | now rewrite !append_cons, IH]. Qed.

Lemma length_append (s t : string) :
  String.length (s +:+ t) = (String.length s + String.length t)%nat.
Proof.
  induction s as [|c s IH]; [reflexivity|].
  rewrite append_cons. simpl. now rewrite IH.
Qed.

Lemma append_same_length_inj (a b x y : string) :
  String.length a = String.length b -> a +:+ x = b +:+ y -> a = b /\ x = y.
Proof.
  revert b. induction a as [|c a IH]; intros [|d b] Hlen Heq; simpl in Hlen; try discriminate.
  - auto.
  - rewrite !append_cons in Heq. injection Heq as -> Heq. injection Hlen as Hlen.
    destruct (IH b Hlen Heq) as [-> ->]. auto.
Qed.

(** ** The signing loop, the join and the protocol's signature *)

Lemma lookup_all_length data fields vs :
  lookup_all data fields = Some vs -> List.length vs = List.length fields.
Proof.
  revert vs. induction fields as [|f fields IH]; intros vs H; simpl in *.
  - now inversion H.
  - destruct (data !! f); [|discriminate].
    destruct (lookup_all data fields) as [vs0|]; [|discriminate].
    inversion H; subst. simpl. now rewrite (IH vs0).
Qed.

Lemma lookup_all_present data fields vs f :
  lookup_all data fields = Some vs -> In f fields -> is_Some (data !! f).
Proof.
  revert vs. induction fields as [|g fields IH]; intros vs H Hin; simpl in *; [tauto|].
  destruct (data !! g) as [v|] eqn:Hg; [|discriminate].
  destruct (lookup_all data fields) as [vs0|]; [|discriminate].
  destruct Hin as [->|Hin]; [rewrite Hg; eauto | eauto].
Qed.

Lemma sign_values_ok data fields acc vs :
  lookup_all data fields = Some vs ->
  sign_values data fields acc = Ok (acc ++ map (fun v => VStr (py_str v)) vs).
Proof.
  revert acc vs. induction fields as [|f fields IH]; intros acc vs H; simpl in *.
  - inversion H; subst. simpl. now rewrite app_nil_r.
  - destruct (data !! f) as [v|]; [|discriminate].
    destruct (lookup_all data fields) as [vs0|] eqn:E; [|discriminate].
    inversion H; subst. rewrite (IH _ vs0 eq_refl). simpl.
    now rewrite <- app_assoc.
Qed.

Lemma sign_values_missing data fields acc :
  lookup_all data fields = None ->
  exists f, In f fields /\ data !! f = None /\
            sign_values data fields acc = Raise (KeyError f).
Proof.
  revert acc. induction fields as [|f fields IH]; intros acc H; simpl in *; [discriminate|].
  destruct (data !! f) as [v|] eqn:Hf.
  - destruct (lookup_all data fields) as [vs0|] eqn:E; [discriminate|].
    destruct (IH (acc ++ [VStr (py_str v)]) eq_refl) as (g & Hin & Hg & Hs).
    exists g. auto.
  - exists f. auto.
Qed.

Lemma py_join_text vs last :
  py_join (map (fun v => VStr (py_str v)) vs ++ [VStr last]) = Ok (sign_input vs last).
Proof.
  induction vs as [|v vs IH]; simpl.
  - f_equal. apply append_nil_r.
  - rewrite IH. reflexivity.
Qed.

Lemma py_join_not_text vs last :
  (forall s, last <> VStr s) ->
  py_join (map (fun v => VStr (py_str v)) vs ++ [last]) = Raise TypeError.
Proof.
  intros Hlast. induction vs as [|v vs IH]; simpl.
  - destruct last; try reflexivity. now destruct (Hlast s).
  - rewrite IH. reflexivity.
Qed.

Lemma nonce_text_join vs nonce :
  py_join (map (fun v => VStr (py_str v)) vs ++ [if py_truthy nonce then nonce else VStr ""]) =
  match nonce_text nonce with
  | Some t => Ok (sign_input vs t)
  | None => Raise TypeError
  end.
Proof.
  unfold nonce_text. destruct (py_truthy nonce) eqn:Ht.
  - destruct nonce; try (apply py_join_not_text; congruence). apply py_join_text.
  - apply py_join_text.
Qed.

Lemma verify_nonce_join vs data :
  py_join (map (fun v => VStr (py_str v)) vs ++ [default (VStr "") (data !! "nonce")]) =
  match verify_nonce data with
  | Some t => Ok (sign_input vs t)
  | None => Raise TypeError
  end.
Proof.
  unfold verify_nonce. destruct (data !! "nonce") as [v|]; simpl.
  - destruct v; try (apply py_join_not_text; congruence). apply py_join_text.
  - apply py_join_text.
Qed.

Section Signing.

Variable self : PSPClient.

(** What the signing prologue of [_call] computes. *)
Lemma sign_params_spec fields data vs t :
  lookup_all data fields = Some vs ->
  nonce_text (default (VStr "") (data !! "nonce")) = Some t ->
  sign_params self fields data =
  Ok (<["sign" := VStr (Sign (apikey self) vs t)]> (delete "nonce" data)).
Proof.
  intros Hvs Ht. unfold sign_params.
  rewrite (sign_values_ok _ _ _ _ Hvs). simpl.
  rewrite nonce_text_join, Ht. reflexivity.
Qed.

Lemma sign_params_ok_inv fields data params :
  sign_params self fields data = Ok params ->
  exists vs t, lookup_all data fields = Some vs /\
               nonce_text (default (VStr "") (data !! "nonce")) = Some t /\
               params = <["sign" := VStr (Sign (apikey self) vs t)]> (delete "nonce" data).
Proof.
  intros H. destruct (lookup_all data fields) as [vs|] eqn:Hvs.
  - destruct (nonce_text (default (VStr "") (data !! "nonce"))) as [t|] eqn:Ht.
    + rewrite (sign_params_spec _ _ _ _ Hvs Ht) in H. inversion H; subst. eauto.
    + unfold sign_params in H. rewrite (sign_values_ok _ _ _ _ Hvs) in H. simpl in H.
      rewrite nonce_text_join, Ht in H. discriminate.
  - destruct (sign_values_missing _ _ [] Hvs) as (f & _ & _ & Hs).
    unfold sign_params in H. rewrite Hs in H. discriminate.
Qed.

(** What [_verify_signature] computes on an object with all designated
    fields and a usable nonce. *)
Lemma verify_spec fields data vs t :
  lookup_all data fields = Some vs ->
  verify_nonce data = Some t ->
  _verify_signature self (JObj data) fields =
  match data !! "sign" with
  | None => Raise (KeyError "sign")
  | Some received =>
      if py_str_eq (Sign (apikey self) vs t) received then Ok tt
      else Raise (InvalidSignature received)
  end.
Proof.
  intros Hvs Ht. unfold _verify_signature.
  rewrite (sign_values_ok _ _ _ _ Hvs). simpl.
  rewrite verify_nonce_join, Ht. simpl.
  destruct (data !! "sign") as [r|]; [|reflexivity].
  unfold Sign. now destruct (py_str_eq _ r).
Qed.

Lemma verify_missing_field fields data :
  lookup_all data fields = None ->
  exists f, In f fields /\ data !! f = None /\
            _verify_signature self (JObj data) fields = Raise (KeyError f).
Proof.
  intros H. destruct (sign_values_missing _ _ [] H) as (f & Hin & Hf & Hs).
  exists f. repeat split; auto. unfold _verify_signature. now rewrite Hs.
Qed.

Lemma verify_bad_nonce fields data vs :
  lookup_all data fields = Some vs ->
  verify_nonce data = None ->
  _verify_signature self (JObj data) fields = Raise TypeError.
Proof.
  intros Hvs Ht. unfold _verify_signature.
  rewrite (sign_values_ok _ _ _ _ Hvs). simpl.
  now rewrite verify_nonce_join, Ht.
Qed.

End Signing.

(** ** Changing one signed value changes the signed text *)

Lemma sign_input_cons v vs t : sign_input (v :: vs) t = py_str v +:+ sign_input vs t.
Proof. reflexivity. Qed.

Lemma lookup_all_insert data fields f v v' vs t :
  lookup_all data fields = Some vs ->
  data !! f = Some v ->
  exists vs',
    lookup_all (<[f := v']> data) fields = Some vs' /\
    (String.length (sign_input vs' t) + occurrences f fields * String.length (py_str v) =
     String.length (sign_input vs t) + occurrences f fields * String.length (py_str v'))%nat /\
    (In f fields -> sign_input vs' t = sign_input vs t -> py_str v' = py_str v).
Proof.
  intros Hvs Hf. revert vs Hvs.
  induction fields as [|g fields IH]; intros vs Hvs; simpl in *.
  - inversion Hvs; subst. exists []. repeat split; auto. tauto.
  - destruct (data !! g) as [u|] eqn:Hg; [|discriminate].
    destruct (lookup_all data fields) as [vs0|] eqn:E; [|discriminate].
    inversion Hvs; subst; clear Hvs.
    destruct (IH vs0 eq_refl) as (vs0' & Hl & Hlen & Hinj).
    destruct (decide (g = f)) as [->|Hne].
    + rewrite lookup_insert_eq, Hl. simpl.
      assert (u = v) by congruence. subst u.
      exists (v' :: vs0'). split; [reflexivity|].
      rewrite !sign_input_cons, !length_append. split; [lia|].
      intros _ Heq.
      assert (Htot : (String.length (py_str v') + String.length (sign_input vs0' t) =
                      String.length (py_str v) + String.length (sign_input vs0 t))%nat).
      { rewrite <- !length_append. now rewrite Heq. }
      assert (Hsame : String.length (py_str v') = String.length (py_str v)) by nia.
      now destruct (append_same_length_inj _ _ _ _ Hsame Heq).
    + rewrite lookup_insert_ne by congruence. rewrite Hg, Hl. simpl.
      exists (u :: vs0'). split; [reflexivity|].
      rewrite !sign_input_cons, !length_append. split; [lia|].
      intros [Heq|Hin] Hs; [congruence|].
      apply Hinj; [assumption|].
      now apply (String.app_inj (py_str u)).
Qed.

Lemma sign_input_changed data fields f v v' vs t :
  lookup_all data fields = Some vs ->
  data !! f = Some v ->
  In f fields ->
  py_str v' <> py_str v ->
  exists vs',
    lookup_all (<[f := v']> data) fields = Some vs' /\
    sign_input vs' t <> sign_input vs t.
Proof.
  intros Hvs Hf Hin Hne.
  destruct (lookup_all_insert data fields f v v' vs t Hvs Hf) as (vs' & Hl & _ & Hinj).
  exists vs'. split; [assumption|]. intros Heq. apply Hne. auto.
Qed.

(** A change that keeps the string form keeps the signed text. *)
Lemma sign_input_same_str data fields f v v' vs t :
  lookup_all data fields = Some vs ->
  data !! f = Some v ->
  py_str v' = py_str v ->
  exists vs',
    lookup_all (<[f := v']> data) fields = Some vs' /\
    sign_input vs' t = sign_input vs t.
Proof.
  intros Hvs Hf Hstr. revert vs Hvs.
  induction fields as [|g fields IH]; intros vs Hvs; simpl in *.
  - inversion Hvs; subst. exists []. auto.
  - destruct (data !! g) as [u|] eqn:Hg; [|discriminate].
    destruct (lookup_all data fields) as [vs0|] eqn:E; [|discriminate].
    inversion Hvs; subst; clear Hvs.
    destruct (IH vs0 eq_refl) as (vs0' & Hl & Heq).
    destruct (decide (g = f)) as [->|Hne].
    + rewrite lookup_insert_eq, Hl. simpl.
      assert (u = v) by congruence. subst u.
      exists (v' :: vs0'). split; [reflexivity|].
      now rewrite !sign_input_cons, Hstr, Heq.
    + rewrite lookup_insert_ne by congruence. rewrite Hg, Hl. simpl.
      exists (u :: vs0'). split; [reflexivity|].
      now rewrite !sign_input_cons, Heq.
Qed.

(** ** The amount pattern *)

Lemma digit_not_dot c : Re.digit c = true -> Re.dot c = false.
Proof. destruct c as [[] [] [] [] [] [] [] []]; vm_compute; congruence. Qed.

Lemma digit_not_LF c : Re.digit c = true -> Ascii.eqb c LF = false.
Proof. destruct c as [[] [] [] [] [] [] [] []]; vm_compute; congruence. Qed.

Lemma at_eol_digit c s : Re.digit c = true -> at_eol (String c s) = false.
Proof. intros H. destruct s; simpl; [now apply digit_not_LF | reflexivity]. Qed.

Lemma at_eol_inv r : at_eol r = true -> r = EmptyString \/ r = String LF EmptyString.
Proof.
  destruct r as [|c [|d r]]; simpl; intros H; try discriminate; auto.
  apply Ascii.eqb_eq in H. subst. auto.
Qed.

Lemma span_digits_spec s :
  s = fst (span_digits s) +:+ snd (span_digits s) /\
  all_digits (fst (span_digits s)) = true /\
  match snd (span_digits s) with
  | String c _ => Re.digit c = false
  | EmptyString => True
  end.
Proof.
  induction s as [|c s (IH1 & IH2 & IH3)]; simpl; [auto|].
  destruct (Re.digit c) eqn:Hc.
  - destruct (span_digits s) as [i r]; simpl in *.
    rewrite append_cons, <- IH1, Hc. auto.
  - simpl. auto.
Qed.

Lemma span_digits_app i r :
  all_digits i = true ->
  match r with String c _ => Re.digit c = false | EmptyString => True end ->
  span_digits (i +:+ r) = (i, r).
Proof.
  intros Hi Hr. induction i as [|c i IH].
  - rewrite append_nil_l. destruct r as [|c r]; [reflexivity|]. simpl. now rewrite Hr.
  - simpl in Hi. apply andb_true_iff in Hi as [Hc Hi]. rewrite append_cons. simpl.
    now rewrite Hc, (IH Hi).
Qed.

Lemma span_digits_all i : all_digits i = true -> span_digits i = (i, EmptyString).
Proof.
  intros Hi. rewrite <- (append_nil_r i) at 1. now apply span_digits_app.
Qed.

(** The greedy loop over digits ends where the digits end, whenever the
    continuation cannot start on a digit. *)
Lemma more_digit s k :
  (forall c s', Re.digit c = true -> k false (String c s') = false) ->
  Re.more Re.digit s k = k false (snd (span_digits s)).
Proof.
  intros Hk. induction s as [|c s IH]; simpl; [reflexivity|].
  destruct (Re.digit c) eqn:Hc; simpl.
  - rewrite IH, (Hk c s Hc), orb_false_r.
    now destruct (span_digits s).
  - reflexivity.
Qed.

Lemma matches_reg_decimal s :
  Re.matches _reg_decimal s =
  match s with
  | String c s' => Re.digit c && decimal_tail (snd (span_digits s'))
  | EmptyString => false
  end.
Proof.
  unfold Re.matches, _reg_decimal. simpl.
  destruct s as [|c s]; [reflexivity|]. f_equal.
  rewrite more_digit.
  - unfold decimal_tail.
    destruct (snd (span_digits s)) as [|d [|d2 r]]; simpl.
    + reflexivity.
    + now rewrite andb_false_r, andb_true_r.
    + rewrite more_digit.
      * rewrite andb_assoc. f_equal.
        destruct (snd (span_digits r)) as [|e [|e2 r2]]; simpl;
          rewrite ?andb_true_r; reflexivity.
      * intros e r2 He. destruct r2; simpl; [|reflexivity].
        now rewrite (digit_not_LF e He).
  - intros d r Hd. simpl. rewrite (digit_not_dot d Hd). simpl.
    destruct r; [|reflexivity]. now rewrite (digit_not_LF d Hd).
Qed.

Lemma dot_not_digit c : Re.dot c = true -> Re.digit c = false.
Proof.
  intros H. destruct (Re.digit c) eqn:Hc; [|reflexivity].
  rewrite (digit_not_dot c Hc) in H. discriminate.
Qed.

Lemma LF_not_digit : Re.digit LF = false.
Proof. reflexivity. Qed.

(** Shape of the strings of the protocol's amount syntax. *)
Lemma valid_decimal_intro i r :
  all_digits i = true -> nonempty i = true ->
  (r = EmptyString \/
   exists c f, r = String c f /\ Re.dot c = true /\ nonempty f = true /\ all_digits f = true) ->
  valid_decimal (i +:+ r) = true.
Proof.
  intros Hi Hn Hr. unfold valid_decimal.
  rewrite span_digits_app; [|assumption|].
  - rewrite Hn. simpl. destruct Hr as [->|(c & f & -> & Hc & Hf & Hd)]; [reflexivity|].
    now rewrite Hc, Hf, Hd.
  - destruct Hr as [->|(c & f & -> & Hc & _)]; [exact I | now apply dot_not_digit].
Qed.

Lemma valid_decimal_elim s :
  valid_decimal s = true ->
  exists i r, s = i +:+ r /\ all_digits i = true /\ nonempty i = true /\
    (r = EmptyString \/
     exists c f, r = String c f /\ Re.dot c = true /\ nonempty f = true /\ all_digits f = true).
Proof.
  unfold valid_decimal. intros H.
  destruct (span_digits_spec s) as (Hs & Hi & _).
  destruct (span_digits s) as [i r]; simpl in *.
  apply andb_true_iff in H as [Hn Hr].
  exists i, r. repeat split; auto.
  destruct r as [|c f]; [auto|]. right.
  apply andb_true_iff in Hr as [Hr Hd]. apply andb_true_iff in Hr as [Hc Hf].
  exists c, f. auto.
Qed.

Lemma matches_intro i r e :
  all_digits i = true -> nonempty i = true ->
  (r = EmptyString \/
   exists c f, r = String c f /\ Re.dot c = true /\ nonempty f = true /\ all_digits f = true) ->
  (e = EmptyString \/ e = String LF EmptyString) ->
  Re.matches _reg_decimal (i +:+ r +:+ e) = true.
Proof.
  intros Hi Hn Hr He. rewrite matches_reg_decimal.
  destruct i as [|c i]; [discriminate|]. simpl in Hi.
  apply andb_true_iff in Hi as [Hc Hi]. rewrite append_cons, Hc. simpl.
  assert (Hat : at_eol e = true) by (destruct He as [->| ->]; reflexivity).
  assert (He' : match e with String c _ => Re.digit c = false | EmptyString => True end)
    by (destruct He as [->| ->]; [exact I | reflexivity]).
  destruct Hr as [->|(d & f & -> & Hd & Hf & Hdf)].
  - rewrite append_nil_l, span_digits_app by assumption. simpl.
    unfold decimal_tail. rewrite Hat. apply orb_true_r.
  - rewrite span_digits_app; [|assumption|now apply dot_not_digit]. simpl.
    destruct f as [|d2 f]; [discriminate|]. simpl in Hdf.
    apply andb_true_iff in Hdf as [Hd2 Hdf].
    unfold decimal_tail. rewrite !append_cons, Hd, Hd2.
    rewrite span_digits_app by assumption. simpl. now rewrite Hat.
Qed.

Lemma valid_decimal_matches s :
  valid_decimal s = true -> Re.matches _reg_decimal s = true.
Proof.
  intros H. destruct (valid_decimal_elim s H) as (i & r & -> & Hi & Hn & Hr).
  rewrite <- (append_nil_r r). apply matches_intro; auto.
Qed.

Lemma valid_decimal_newline_matches d :
  valid_decimal d = true -> Re.matches _reg_decimal (d +:+ String LF EmptyString) = true.
Proof.
  intros H. destruct (valid_decimal_elim d H) as (i & r & -> & Hi & Hn & Hr).
  rewrite append_assoc. apply matches_intro; auto.
Qed.

(** The strings the compiled pattern accepts: the amount syntax, with or
    without one trailing newline. *)
Lemma matches_reg_decimal_inv s :
  Re.matches _reg_decimal s = true ->
  valid_decimal s = true \/
  exists d, valid_decimal d = true /\ s = d +:+ String LF EmptyString.
Proof.
  rewrite matches_reg_decimal. destruct s as [|c s]; [discriminate|].
  intros H. apply andb_true_iff in H as [Hc Ht].
  destruct (span_digits_spec s) as (Hs & Hi & Hr).
  set (i := fst (span_digits s)) in *. set (r := snd (span_digits s)) in *.
  assert (Hci : all_digits (String c i) = true) by (simpl; now rewrite Hc, Hi).
  unfold decimal_tail in Ht. apply orb_true_iff in Ht as [Ht|Ht].
  - destruct r as [|d [|d2 r']]; try discriminate.
    apply andb_true_iff in Ht as [Ht Hat]. apply andb_true_iff in Ht as [Hd Hd2].
    destruct (span_digits_spec r') as (Hr' & Hf & _).
    set (f := fst (span_digits r')) in *. set (e := snd (span_digits r')) in *.
    assert (Hfrac : exists c0 f0, String d (String d2 f) = String c0 f0 /\ Re.dot c0 = true /\
                      nonempty f0 = true /\ all_digits f0 = true).
    { exists d, (String d2 f). repeat split; auto. simpl. now rewrite Hd2, Hf. }
    assert (Hsplit : String c s = (String c i +:+ String d (String d2 f)) +:+ e).
    { rewrite Hs, Hr', !append_cons, append_assoc, !append_cons. reflexivity. }
    destruct (at_eol_inv e Hat) as [He|He]; rewrite He in Hsplit.
    + left. rewrite Hsplit, append_nil_r. apply valid_decimal_intro; auto.
    + right. exists (String c i +:+ String d (String d2 f)). split; [|assumption].
      apply valid_decimal_intro; auto.
  - assert (Hsplit : String c s = String c i +:+ r) by (now rewrite Hs, append_cons).
    destruct (at_eol_inv r Ht) as [He|He]; rewrite He in Hsplit.
    + left. rewrite Hsplit. apply valid_decimal_intro; auto.
    + right. exists (String c i). split; [|assumption].
      rewrite <- (append_nil_r (String c i)). apply valid_decimal_intro; auto.
Qed.

Theorem reg_decimal_language s :
  Re.matches _reg_decimal s = true <->
  valid_decimal s = true \/
  exists d, valid_decimal d = true /\ s = d +:+ String LF EmptyString.
Proof.
  split; [apply matches_reg_decimal_inv|].
  intros [H|(d & H & ->)];
    [now apply valid_decimal_matches | now apply valid_decimal_newline_matches].
Qed.

(** ** Amount normalisation *)

Lemma normalize_amount_accepts v :
  Re.matches _reg_decimal (py_str v) = true -> _normalize_amount v = Ok (py_str v).
Proof. intros H. unfold _normalize_amount. now rewrite H. Qed.

Lemma normalize_amount_rejects v :
  Re.matches _reg_decimal (py_str v) = false ->
  _normalize_amount v =
  Raise (ValueError ("could not parse amount " +:+ py_repr_str (py_str v) +:+
                     ", must be a positive decimal")).
Proof. intros H. unfold _normalize_amount. now rewrite H. Qed.

(** Every amount of the protocol's syntax is accepted and returned as is. *)
Lemma normalize_amount_valid d :
  valid_decimal d = true -> _normalize_amount (VStr d) = Ok d.
Proof. intros H. apply (normalize_amount_accepts (VStr d)). now apply valid_decimal_matches. Qed.

(** Text outside the syntax is rejected, unless it is an amount followed by
    one newline. *)
Lemma normalize_amount_invalid s :
  valid_decimal s = false ->
  (forall d, valid_decimal d = true -> s <> d +:+ String LF EmptyString) ->
  _normalize_amount (VStr s) =
  Raise (ValueError ("could not parse amount " +:+ py_repr_str s +:+
                     ", must be a positive decimal")).
Proof.
  intros Hv Hnl. apply (normalize_amount_rejects (VStr s)). simpl.
  destruct (Re.matches _reg_decimal s) eqn:Hm; [|reflexivity].
  destruct (matches_reg_decimal_inv s Hm) as [H|(d & Hd & Hs)]; [congruence|].
  now destruct (Hnl d Hd).
Qed.

(** ** The call helper and the three operations, step by step *)

Section Operations.

Variable json_loads : string -> option jval.
Variable dec : Type.
Variable Decimal : pyval -> option dec.
Variable self : PSPClient.

Lemma call_run path method fields kwargs n :
  _call json_loads self path method fields kwargs n =
  match call_params self fields kwargs with
  | Raise e => (Raise e, n)
  | Ok data =>
      if existsb (String.eqb (lower method)) request_verbs then
        let q := mkRequest (lower method) (base_url self +:+ path) data in
        match pending n with
        | [] => (Raise TransportError, mkNet [] (sent n ++ [q]))
        | r :: rest => (classify json_loads r, mkNet rest (sent n ++ [q]))
        end
      else if String.eqb (lower method) "request" then (Raise TypeError, n)
      else (Raise AttributeError, n)
  end.
Proof.
  assert (Hcls : forall r,
    (if (status_code r <? 200)%Z || (400 <=? status_code r)%Z
     then @raise jval (ServerError (status_code r) (reason r) (text r))
     else match json_loads (text r) with
          | Some j => ret j
          | None => raise DecodeError
          end) = lift (classify json_loads r)).
  { intros r. unfold classify, in_range.
    destruct (Z.ltb_spec (status_code r) 200), (Z.leb_spec 400 (status_code r)),
             (Z.leb_spec 200 (status_code r)), (Z.ltb_spec (status_code r) 400);
      simpl; try lia; try reflexivity.
    destruct (json_loads (text r)); reflexivity. }
  unfold _call, call_params, bind, getattr_requests.
  destruct fields as [|f fields]; unfold lift, ret at 1;
    [|destruct (sign_params self (f :: fields) kwargs) as [data|e]; [|reflexivity]];
    (destruct (existsb _ _); [|destruct (String.eqb _ _); reflexivity]);
    unfold ret at 1, http_request;
    (destruct (pending n) as [|r rest]; [reflexivity|]);
    rewrite Hcls; reflexivity.
Qed.

Lemma call_get path fields kwargs n :
  _call json_loads self path "GET" fields kwargs n =
  match call_params self fields kwargs with
  | Raise e => (Raise e, n)
  | Ok data =>
      let q := mkRequest "get" (base_url self +:+ path) data in
      match pending n with
      | [] => (Raise TransportError, mkNet [] (sent n ++ [q]))
      | r :: rest => (classify json_loads r, mkNet rest (sent n ++ [q]))
      end
  end.
Proof. rewrite call_run. reflexivity. Qed.

Lemma classify_in_range r :
  (200 <= status_code r < 400)%Z ->
  classify json_loads r =
  match json_loads (text r) with
  | Some j => Ok j
  | None => Raise DecodeError
  end.
Proof.
  intros [H1 H2]. unfold classify, in_range.
  destruct (Z.leb_spec 200 (status_code r)), (Z.ltb_spec (status_code r) 400);
    simpl; try lia; reflexivity.
Qed.


Lemma classify_server_error r c m b :
  classify json_loads r = Raise (ServerError c m b) ->
  ~ (200 <= status_code r < 400)%Z /\ c = status_code r /\ m = reason r /\ b = text r.
Proof.
  unfold classify, in_range.
  destruct (Z.leb_spec 200 (status_code r)), (Z.ltb_spec (status_code r) 400); simpl;
    try (destruct (json_loads (text r)); discriminate);
    intros Hcls; inversion Hcls; subst; repeat split; lia.
Qed.

(** The exceptions [_verify_signature] can raise. *)
Lemma verify_raises data fields e :
  _verify_signature self data fields = Raise e ->
  (exists k, e = KeyError k) \/ e = TypeError \/ e = AttributeError \/
  (exists d s, data = JObj d /\ d !! "sign" = Some s /\ e = InvalidSignature s /\
               is_Some (lookup_all d fields)).
Proof.
  destruct data as [d|v].
  - destruct (lookup_all d fields) as [vs|] eqn:Hvs.
    + destruct (verify_nonce d) as [t|] eqn:Ht.
      * rewrite (verify_spec self _ _ _ _ Hvs Ht).
        destruct (d !! "sign") as [s|] eqn:Hs.
        -- destruct (py_str_eq _ s); [discriminate|].
           intros H; inversion H; subst. right; right; right. exists d, s. eauto.
        -- intros H; inversion H; subst. eauto.
      * rewrite (verify_bad_nonce self _ _ _ Hvs Ht). intros H; inversion H; auto.
    + destruct (verify_missing_field self _ _ Hvs) as (f & _ & _ & Hr).
      rewrite Hr. intros H; inversion H; subst. eauto.
  - simpl. destruct fields; intros H; inversion H; auto.
Qed.

Lemma start_run a d us cs m o uf cf nonce n :
  start json_loads self a d us cs m o uf cf nonce n =
  match _normalize_amount a with
  | Raise e => (Raise e, n)
  | Ok amount =>
      match _call json_loads self "/start/" "GET" start_sign_fields
              (start_kwargs amount d us cs m o uf cf nonce) n with
      | (Raise e, n') => (Raise e, n')
      | (Ok data, n') =>
          (match _verify_signature self data start_response_fields with
           | Ok _ => Ok data
           | Raise e => Raise e
           end, n')
      end
  end.
Proof.
  unfold start, bind, lift, ret.
  destruct (_normalize_amount a) as [amount|e]; [|reflexivity].
  destruct (_call _ _ _ _ _ _ n) as [[data|e] n']; [|reflexivity].
  destruct (_verify_signature self data start_response_fields); reflexivity.
Qed.

Lemma price_btc_run a decimals n :
  price_btc json_loads dec Decimal self a decimals n =
  match _normalize_amount a with
  | Raise e => (Raise e, n)
  | Ok amount =>
      if (decimals <? 0)%Z then (Raise (ValueError "decimals must be a positive integer"), n)
      else
        match _call json_loads self "/price_btc/" "GET" []
                (<["amount_eur" := VStr amount]> (<["decimals" := VInt decimals]> ∅)) n with
        | (Raise e, n') => (Raise e, n')
        | (Ok (JVal v), n') =>
            (decimal_of dec Decimal v, n')
        | (Ok (JObj _), n') => (Raise TypeError, n')
        end
  end.
Proof.
  unfold price_btc, bind, lift, ret, raise.
  destruct (_normalize_amount a) as [amount|e]; [|reflexivity].
  destruct (decimals <? 0)%Z; [reflexivity|].
  unfold to_decimal, lift.
  destruct (_call _ _ _ _ _ _ n) as [[[obj|v]|e] n']; reflexivity.
Qed.

Lemma decimal_of_raises v e :
  decimal_of dec Decimal v = Raise e -> e = ConversionError \/ e = TypeError.
Proof.
  unfold decimal_of. destruct v; try (intros H; inversion H; auto; fail);
    destruct (Decimal _); intros H; inversion H; auto.
Qed.


Lemma transaction_status_run txid nonce n :
  transaction_status json_loads dec Decimal self txid nonce n =
  match _call json_loads self ("/tx/" +:+ py_str txid +:+ "/status/") "GET" [] ∅ n with
  | (Raise e, n') => (Raise e, n')
  | (Ok (JVal _), n') => (Raise AttributeError, n')
  | (Ok (JObj d), n') =>
      (match _verify_signature self (JObj d) status_response_fields with
       | Raise e => Raise e
       | Ok _ => shape_status dec Decimal d
       end, n')
  end.
Proof.
  unfold transaction_status, bind, lift, ret, raise.
  destruct (_call _ _ _ _ _ _ n) as [[[d|v]|e] n']; try reflexivity.
  destruct (_verify_signature self (JObj d) status_response_fields); [|reflexivity].
  unfold shape_status, getitem, to_decimal, ret, raise, status_result.
  destruct (d !! "status"); [|reflexivity].
  destruct (d !! "amount_btc") as [vb|]; [|reflexivity].
  destruct (decimal_of dec Decimal vb); [|reflexivity].
  destruct (d !! "amount_received") as [vr|]; [|reflexivity].
  destruct (decimal_of dec Decimal vr); [|reflexivity].
  destruct (d !! "txid"); [|reflexivity].
  destruct (d !! "sign"); reflexivity.
Qed.

End Operations.

(** ** Transport-error mapping *)

Section ErrorMapping.

Variable json_loads : string -> option jval.
Variable dec : Type.
Variable Decimal : pyval -> option dec.
Variable self : PSPClient.



Lemma sent_grows_not_same (n : net) (q : request) : sent n ++ [q] <> sent n.
Proof.
  intros H. apply (f_equal (@List.length request)) in H.
  rewrite length_app in H. simpl in H. lia.
Qed.


End ErrorMapping.

(** ** Quotes, status queries and the transmitted parameters *)

Section Plumbing.

Variable json_loads : string -> option jval.
Variable dec : Type.
Variable Decimal : pyval -> option dec.
Variable self : PSPClient.

(** What [price_btc] does around the defect of the pattern: an amount that
    is not of the form digits[.digits], and is not such an amount followed by
    one newline, or a negative [decimals], raises the invalid-argument error
    (ValueError) and leaves the transport as it was, no request issued; an
    amount of the form digits[.digits] with a good response whose body
    decodes to [v] gives [Decimal(v)], through one unsigned GET; the API key
    plays no part, so no signature is checked. *)
Lemma price_btc_validates_then_quotes (a : pyval) (decimals : Z) (n : net) :
  ((valid_decimal (py_str a) = false /\
    (forall d, valid_decimal d = true -> py_str a <> d +:+ String LF EmptyString)) \/
   (decimals < 0)%Z ->
     exists message,
       price_btc json_loads dec Decimal self a decimals n = (Raise (ValueError message), n)) /\
  (forall r rest v,
     valid_decimal (py_str a) = true -> (0 <= decimals)%Z ->
     pending n = r :: rest -> (200 <= status_code r < 400)%Z ->
     json_loads (text r) = Some (JVal v) ->
     price_btc json_loads dec Decimal self a decimals n =
     (decimal_of dec Decimal v,
      mkNet rest
        (sent n ++ [mkRequest "get" (base_url self +:+ "/price_btc/")
                      (<["amount_eur" := VStr (py_str a)]>
                         (<["decimals" := VInt decimals]> ∅))]))) /\
  (forall key',
     price_btc json_loads dec Decimal (mkClient key' (base_url self)) a decimals n =
     price_btc json_loads dec Decimal self a decimals n).
Proof.
  split; [|split].
  - intros H. rewrite price_btc_run.
    destruct (Re.matches _reg_decimal (py_str a)) eqn:Hm.
    + destruct H as [[Hv Hnl]|H].
      * destruct (matches_reg_decimal_inv _ Hm) as [Hv'|(d & Hd & Hs)];
          [congruence | now destruct (Hnl d Hd)].
      * rewrite (normalize_amount_accepts a Hm).
        destruct (Z.ltb_spec decimals 0); [eauto | lia].
    + rewrite (normalize_amount_rejects a Hm). eauto.
  - intros r rest v Hv Hd Hp Hin Hj. rewrite price_btc_run.
    rewrite (normalize_amount_accepts a (valid_decimal_matches _ Hv)).
    destruct (Z.ltb_spec decimals 0); [lia|].
    rewrite call_get. simpl. rewrite Hp. simpl.
    rewrite (classify_in_range json_loads r Hin), Hj. reflexivity.
  - intros key'. rewrite !price_btc_run.
    destruct (_normalize_amount a); [|reflexivity].
    destruct (decimals <? 0)%Z; [reflexivity|].
    rewrite !call_get. reflexivity.
Qed.






(** C9. Every signed request built by [_call] carries the computed [sign]
    parameter and no [nonce] parameter: the nonce only enters the signed
    text; every other keyword argument is transmitted as supplied. *)
Theorem C9_signed_request_parameters (path method : string) (fields : list string)
    (kwargs : gmap string pyval) (n : net) (q : request) :
  fields <> [] ->
  sent (snd (_call json_loads self path method fields kwargs n)) = sent n ++ [q] ->
  (exists vs t,
     lookup_all kwargs fields = Some vs /\
     nonce_text (default (VStr "") (kwargs !! "nonce")) = Some t /\
     req_params q !! "sign" = Some (VStr (Sign (apikey self) vs t))) /\
  req_params q !! "nonce" = None /\
  (forall k, k <> "sign" -> k <> "nonce" -> req_params q !! k = kwargs !! k).
Proof.
  intros Hne. rewrite call_run.
  destruct fields as [|f fields]; [congruence|]. unfold call_params.
  destruct (sign_params self (f :: fields) kwargs) as [data|e] eqn:Hs.
  - destruct (sign_params_ok_inv self _ _ _ Hs) as (vs & t & Hvs & Ht & ->).
    destruct (existsb (String.eqb (lower method)) request_verbs).
    + intros Hsent.
      assert (Hq : q = mkRequest (lower method) (base_url self +:+ path)
                         (<["sign" := VStr (Sign (apikey self) vs t)]> (delete "nonce" kwargs))).
      { destruct (pending n); simpl in Hsent; apply app_inj_tail in Hsent as [_ Hq]; auto. }
      subst q. simpl. split; [|split].
      * exists vs, t. repeat split; auto. apply lookup_insert_eq.
      * rewrite lookup_insert_ne by discriminate. apply lookup_delete_eq.
      * intros k Hk1 Hk2. rewrite lookup_insert_ne by congruence.
        apply lookup_delete_ne. congruence.
    + destruct (String.eqb (lower method) "request"); simpl; intros Hsent;
        symmetry in Hsent; now apply sent_grows_not_same in Hsent.
  - simpl. intros Hsent. symmetry in Hsent. now apply sent_grows_not_same in Hsent.
Qed.

End Plumbing.

(** ** Verification of responses *)

Section Verification.

Variable json_loads : string -> option jval.
Variable dec : Type.
Variable Decimal : pyval -> option dec.
Variable self : PSPClient.

Lemma py_str_eq_text (a b : string) : py_str_eq a (VStr b) = true <-> a = b.
Proof. simpl. apply String.eqb_eq. Qed.

Lemma py_str_eq_differs (a b : string) : a <> b -> py_str_eq a (VStr b) = false.
Proof.
  intros H. simpl. destruct (String.eqb a b) eqn:E; [|reflexivity].
  apply String.eqb_eq in E. contradiction.
Qed.

Lemma lookup_all_missing data fields f :
  In f fields -> data !! f = None -> lookup_all data fields = None.
Proof.
  intros Hin Hf. destruct (lookup_all data fields) as [vs|] eqn:Hvs; [|reflexivity].
  destruct (lookup_all_present _ _ _ _ Hvs Hin) as [v Hv]. congruence.
Qed.

Lemma verify_signed data fields vs t :
  lookup_all data fields = Some vs ->
  verify_nonce data = Some t ->
  data !! "sign" = Some (VStr (Sign (apikey self) vs t)) ->
  _verify_signature self (JObj data) fields = Ok tt.
Proof.
  intros Hvs Ht Hs. rewrite (verify_spec self _ _ _ _ Hvs Ht), Hs.
  assert (H : py_str_eq (Sign (apikey self) vs t) (VStr (Sign (apikey self) vs t)) = true)
    by now apply py_str_eq_text.
  now rewrite H.
Qed.

Lemma verify_nonce_insert data f v :
  f <> "nonce" -> verify_nonce (<[f := v]> data) = verify_nonce data.
Proof. intros H. unfold verify_nonce. now rewrite lookup_insert_ne. Qed.

(** A signed object after one designated value was replaced. *)
Lemma verify_tampered data fields vs t f v v' :
  lookup_all data fields = Some vs ->
  verify_nonce data = Some t ->
  data !! "sign" = Some (VStr (Sign (apikey self) vs t)) ->
  In f fields -> f <> "nonce" -> f <> "sign" ->
  data !! f = Some v ->
  py_str v' <> py_str v ->
  exists vs',
    lookup_all (<[f := v']> data) fields = Some vs' /\
    sign_input vs' t <> sign_input vs t /\
    (Sign (apikey self) vs' t <> Sign (apikey self) vs t ->
     _verify_signature self (JObj (<[f := v']> data)) fields =
     Raise (InvalidSignature (VStr (Sign (apikey self) vs t)))).
Proof.
  intros Hvs Ht Hs Hin Hn1 Hn2 Hf Hne.
  destruct (sign_input_changed data fields f v v' vs t Hvs Hf Hin Hne) as (vs' & Hl & Hd).
  exists vs'. repeat split; auto.
  intros Hmac.
  rewrite (verify_spec self _ _ vs' t Hl); [|now rewrite verify_nonce_insert].
  rewrite lookup_insert_ne by congruence. rewrite Hs.
  now rewrite (py_str_eq_differs _ _ Hmac).
Qed.

Lemma verify_same_str data fields vs t f v v' :
  lookup_all data fields = Some vs ->
  verify_nonce data = Some t ->
  data !! "sign" = Some (VStr (Sign (apikey self) vs t)) ->
  f <> "nonce" -> f <> "sign" ->
  data !! f = Some v ->
  py_str v' = py_str v ->
  _verify_signature self (JObj (<[f := v']> data)) fields = Ok tt.
Proof.
  intros Hvs Ht Hs Hn1 Hn2 Hf Heq.
  destruct (sign_input_same_str data fields f v v' vs t Hvs Hf Heq) as (vs' & Hl & Hi).
  rewrite (verify_spec self _ _ vs' t Hl); [|now rewrite verify_nonce_insert].
  rewrite lookup_insert_ne by congruence. rewrite Hs.
  unfold Sign. rewrite Hi.
  assert (H : py_str_eq (hmac_sha256_hex (apikey self) (sign_input vs t))
                (VStr (hmac_sha256_hex (apikey self) (sign_input vs t))) = true)
    by now apply py_str_eq_text.
  now rewrite H.
Qed.

(** The two constructions agree whenever the nonce entry is absent or
    text: the signature [_call] attaches to a mapping is the one
    [_verify_signature] accepts on it. *)
Lemma constructions_agree data fields vs t :
  lookup_all data fields = Some vs ->
  verify_nonce data = Some t ->
  sign_params self fields data =
    Ok (<["sign" := VStr (Sign (apikey self) vs t)]> (delete "nonce" data)) /\
  (data !! "sign" = Some (VStr (Sign (apikey self) vs t)) ->
   _verify_signature self (JObj data) fields = Ok tt).
Proof.
  intros Hvs Ht. split.
  - apply sign_params_spec; [assumption|].
    unfold verify_nonce in Ht. unfold nonce_text.
    destruct (data !! "nonce") as [[| | |s]|]; simpl in *; try discriminate.
    + inversion Ht; subst. now destruct t.
    + now inversion Ht.
  - now apply verify_signed.
Qed.

(** C3 (amended). A response signed as the protocol prescribes, with the key
    of the client and a nonce entry that is absent or text, verifies.  After
    one signed value is replaced by a value with another string form, the
    signed text differs from the original, and verification raises
    InvalidSignature whenever the MAC of the changed text differs from the
    signature; a replacement with the same string form still verifies. *)
Theorem C3_roundtrip_amended (fields : list string) (data : gmap string pyval)
    (vs : list pyval) (t : string) :
  lookup_all data fields = Some vs ->
  verify_nonce data = Some t ->
  data !! "sign" = Some (VStr (Sign (apikey self) vs t)) ->
  _verify_signature self (JObj data) fields = Ok tt /\
  (forall f v v',
     In f fields -> f <> "nonce" -> f <> "sign" ->
     data !! f = Some v -> py_str v' <> py_str v ->
     exists vs',
       lookup_all (<[f := v']> data) fields = Some vs' /\
       sign_input vs' t <> sign_input vs t /\
       (Sign (apikey self) vs' t <> Sign (apikey self) vs t ->
        _verify_signature self (JObj (<[f := v']> data)) fields =
        Raise (InvalidSignature (VStr (Sign (apikey self) vs t))))) /\
  (forall f v v',
     f <> "nonce" -> f <> "sign" ->
     data !! f = Some v -> py_str v' = py_str v ->
     _verify_signature self (JObj (<[f := v']> data)) fields = Ok tt).
Proof.
  intros Hvs Ht Hs. split; [|split].
  - now apply (verify_signed data fields vs t).
  - intros f v v' Hin Hn1 Hn2 Hf Hne. now apply verify_tampered with (v := v).
  - intros f v v' Hn1 Hn2 Hf Heq. now apply verify_same_str with (vs := vs) (t := t) (v := v).
Qed.

Lemma start_kwargs_fields amount d us cs m o uf cf nonce :
  lookup_all (start_kwargs amount d us cs m o uf cf nonce) start_sign_fields =
  Some [VStr amount; d; us; m].
Proof. reflexivity. Qed.

Lemma start_kwargs_nonce amount d us cs m o uf cf nonce :
  start_kwargs amount d us cs m o uf cf nonce !! "nonce" = Some nonce.
Proof. reflexivity. Qed.

Lemma start_response_field_names f :
  In f start_response_fields -> f <> "nonce" /\ f <> "sign".
Proof.
  unfold start_response_fields. simpl.
  intros [<-|[<-|[<-|[<-|[]]]]]; split; discriminate.
Qed.

(** [start] up to the point where the response is decoded. *)
Lemma start_good_response a d us cs m o uf cf nonce n r rest amount t j :
  _normalize_amount a = Ok amount ->
  nonce_text nonce = Some t ->
  pending n = r :: rest ->
  (200 <= status_code r < 400)%Z ->
  json_loads (text r) = Some j ->
  start json_loads self a d us cs m o uf cf nonce n =
  (match _verify_signature self j start_response_fields with
   | Ok _ => Ok j
   | Raise e => Raise e
   end,
   mkNet rest
     (sent n ++ [mkRequest "get" (base_url self +:+ "/start/")
        (<["sign" := VStr (Sign (apikey self) [VStr amount; d; us; m] t)]>
           (delete "nonce" (start_kwargs amount d us cs m o uf cf nonce)))])).
Proof.
  intros Ha Ht Hp Hin Hj. rewrite start_run, Ha, call_get.
  unfold call_params, start_sign_fields.
  rewrite (sign_params_spec self _ _ [VStr amount; d; us; m] t);
    [|apply start_kwargs_fields | now rewrite start_kwargs_nonce].
  simpl. rewrite Hp. simpl.
  rewrite (classify_in_range json_loads r Hin), Hj. reflexivity.
Qed.

(** C4 (amended). [start] signs its request over amount_eur, description,
    url_success, merchant_id in that order (and the nonce), checks the
    response over url_pay, btc_address, url_qrcode, url_status, and returns
    the decoded mapping unchanged when the check passes.  When one of those
    four values was replaced, after signing, by a value with another string
    form, the signed text differs, and [start] raises InvalidSignature
    whenever the MAC of the changed text differs from the signature. *)
Theorem C4_start_amended (a d us cs m o uf cf nonce : pyval) (n : net)
    (r : response) (rest : list response) (amount t : string)
    (data : gmap string pyval) :
  _normalize_amount a = Ok amount ->
  nonce_text nonce = Some t ->
  pending n = r :: rest ->
  (200 <= status_code r < 400)%Z ->
  json_loads (text r) = Some (JObj data) ->
  sent (snd (start json_loads self a d us cs m o uf cf nonce n)) =
    sent n ++ [mkRequest "get" (base_url self +:+ "/start/")
       (<["sign" := VStr (Sign (apikey self) [VStr amount; d; us; m] t)]>
          (delete "nonce" (start_kwargs amount d us cs m o uf cf nonce)))] /\
  fst (start json_loads self a d us cs m o uf cf nonce n) =
    match _verify_signature self (JObj data) start_response_fields with
    | Ok _ => Ok (JObj data)
    | Raise e => Raise e
    end /\
  (_verify_signature self (JObj data) start_response_fields = Ok tt ->
   fst (start json_loads self a d us cs m o uf cf nonce n) = Ok (JObj data)) /\
  (forall signed f v v' vs t',
     data = <[f := v']> signed ->
     In f start_response_fields ->
     signed !! f = Some v ->
     lookup_all signed start_response_fields = Some vs ->
     verify_nonce signed = Some t' ->
     signed !! "sign" = Some (VStr (Sign (apikey self) vs t')) ->
     py_str v' <> py_str v ->
     exists vs',
       lookup_all data start_response_fields = Some vs' /\
       sign_input vs' t' <> sign_input vs t' /\
       (Sign (apikey self) vs' t' <> Sign (apikey self) vs t' ->
        fst (start json_loads self a d us cs m o uf cf nonce n) =
        Raise (InvalidSignature (VStr (Sign (apikey self) vs t'))))).
Proof.
  intros Ha Ht Hp Hin Hj.
  rewrite (start_good_response a d us cs m o uf cf nonce n r rest amount t _ Ha Ht Hp Hin Hj).
  simpl. split; [reflexivity|]. split; [reflexivity|]. split.
  - intros Hv. now rewrite Hv.
  - intros signed f v v' vs t' -> Hf Hsf Hvs Hnt Hs Hne.
    destruct (start_response_field_names f Hf) as [Hn1 Hn2].
    destruct (verify_tampered signed start_response_fields vs t' f v v'
                Hvs Hnt Hs Hf Hn1 Hn2 Hsf Hne) as (vs' & Hl & Hd & Hraise).
    exists vs'. repeat split; auto.
    intros Hmac. now rewrite (Hraise Hmac).
Qed.

Lemma start_verify_error a d us cs m o uf cf nonce n n' amount j e :
  _normalize_amount a = Ok amount ->
  _call json_loads self "/start/" "GET" start_sign_fields
    (start_kwargs amount d us cs m o uf cf nonce) n = (Ok j, n') ->
  _verify_signature self j start_response_fields = Raise e ->
  start json_loads self a d us cs m o uf cf nonce n = (Raise e, n').
Proof. intros Ha Hc Hv. now rewrite start_run, Ha, Hc, Hv. Qed.

Lemma status_verify_error txid nonce n n' d e :
  _call json_loads self ("/tx/" +:+ py_str txid +:+ "/status/") "GET" [] ∅ n =
    (Ok (JObj d), n') ->
  _verify_signature self (JObj d) status_response_fields = Raise e ->
  transaction_status json_loads dec Decimal self txid nonce n = (Raise e, n').
Proof. intros Hc Hv. now rewrite transaction_status_run, Hc, Hv. Qed.

(** C10 (amended). A response that lacks one of the designated fields makes
    [_verify_signature] fail with a key-lookup error for a missing field;
    one that has them all but lacks [sign] fails with the key-lookup error
    for [sign] provided its nonce entry is absent or text; InvalidSignature
    is only raised when all designated fields and [sign] are present.
    [start] and [transaction_status] pass these errors on. *)
Theorem C10_missing_keys_amended (data : gmap string pyval) (fields : list string) :
  (forall f, In f fields -> data !! f = None ->
     exists g, In g fields /\ data !! g = None /\
       _verify_signature self (JObj data) fields = Raise (KeyError g)) /\
  (forall vs t,
     lookup_all data fields = Some vs -> verify_nonce data = Some t ->
     data !! "sign" = None ->
     _verify_signature self (JObj data) fields = Raise (KeyError "sign")) /\
  (forall s,
     _verify_signature self (JObj data) fields = Raise (InvalidSignature s) ->
     (forall f, In f fields -> is_Some (data !! f)) /\ data !! "sign" = Some s) /\
  (forall a d us cs m o uf cf nonce n n' amount e,
     _normalize_amount a = Ok amount ->
     _call json_loads self "/start/" "GET" start_sign_fields
       (start_kwargs amount d us cs m o uf cf nonce) n = (Ok (JObj data), n') ->
     _verify_signature self (JObj data) start_response_fields = Raise e ->
     start json_loads self a d us cs m o uf cf nonce n = (Raise e, n')) /\
  (forall txid nonce n n' e,
     _call json_loads self ("/tx/" +:+ py_str txid +:+ "/status/") "GET" [] ∅ n =
       (Ok (JObj data), n') ->
     _verify_signature self (JObj data) status_response_fields = Raise e ->
     transaction_status json_loads dec Decimal self txid nonce n = (Raise e, n')).
Proof.
  split; [|split; [|split; [|split]]].
  - intros f Hin Hf. apply verify_missing_field. now apply lookup_all_missing with (f := f).
  - intros vs t Hvs Ht Hs. now rewrite (verify_spec self _ _ _ _ Hvs Ht), Hs.
  - intros s Hv.
    destruct (verify_raises self _ _ _ Hv) as [(k & Hk)|[Hk|[Hk|(d0 & s0 & Hd & Hs & Hk & Hall)]]];
      try discriminate.
    inversion Hd; subst d0. inversion Hk; subst s0. split; [|assumption].
    destruct Hall as [vs Hvs]. intros f Hin. now apply (lookup_all_present _ _ _ _ Hvs).
  - intros a d us cs m o uf cf nonce n n' amount e. apply start_verify_error.
  - intros txid nonce n n' e. apply status_verify_error.
Qed.

End Verification.

(** ** Where the code departs from the protocol *)

(** C1 (defect in the code). The protocol folds a falsy nonce in as the empty
    string, on both sides.  [_call] does: on a mapping whose nonce is [None]
    its signing prologue yields the signature over the values and the empty
    nonce.  [_verify_signature] does not: on the same mapping, carrying that
    very signature, it raises a type error from the join. *)
Theorem C1_verify_signature_rejects_none_nonce :
  sign_params Fixture.client start_response_fields Scenario.null_nonce_data =
    Ok (<["sign" := VStr (Sign Fixture.key (Fixture.start_values (VStr "123456")) "")]>
          (delete "nonce" Scenario.null_nonce_data)) /\
  Scenario.null_nonce_data !! "sign" =
    Some (VStr (Sign Fixture.key (Fixture.start_values (VStr "123456")) "")) /\
  _verify_signature Fixture.client (JObj Scenario.null_nonce_data) start_response_fields =
    Raise TypeError.
Proof.
  split; [|split].
  - apply (sign_params_spec Fixture.client); reflexivity.
  - reflexivity.
  - apply (verify_bad_nonce Fixture.client) with (vs := Fixture.start_values (VStr "123456"));
      reflexivity.
Qed.

(** C2 (defect in the code). [transaction_status] builds [sigdata] with the
    caller's nonce but verifies [data]: its outcome does not depend on the
    nonce argument.  A response signed over the status fields and the nonce
    ["abc"] is rejected when the caller passes ["abc"], and a response signed
    without nonce is accepted all the same. *)
Theorem C2_transaction_status_ignores_nonce :
  (forall json_loads dec Decimal self txid nonce nonce' n,
     transaction_status json_loads dec Decimal self txid nonce n =
     transaction_status json_loads dec Decimal self txid nonce' n) /\
  fst (Scenario.status_call (VStr "abc") "status:signed-with-nonce") =
    Raise (InvalidSignature (VStr (Sign Fixture.key Fixture.status_values "abc"))) /\
  raised (fst (Scenario.status_call (VStr "abc") "status:signed-plain")) = None.
Proof.
  split; [|split].
  - reflexivity.
  - vm_compute. reflexivity.
  - vm_compute. reflexivity.
Qed.

(** C5 (defect in the code). ["1\n"] is not of the form digits[.digits], yet
    [_normalize_amount] accepts it and returns it unchanged: [$] also matches
    before a newline that ends the subject. *)
Theorem C5_normalize_amount_accepts_trailing_newline :
  valid_decimal Scenario.amount_newline = false /\
  _normalize_amount (VStr Scenario.amount_newline) = Ok Scenario.amount_newline.
Proof. split; vm_compute; reflexivity. Qed.

(** C7 (defect in the code). The amount ["1\n"] fails the
    decimal syntax digits[.digits], yet [price_btc] raises nothing: it sends
    the request, with that amount as amount_eur, and returns the quote. *)
Theorem C7_price_btc_sends_amount_with_newline :
  valid_decimal Scenario.amount_newline = false /\
  price_btc Fixture.json_loads (Z * Z)%type Fixture.Decimal Fixture.client
    (VStr Scenario.amount_newline) 5
    (Fixture.net_with (Fixture.ok_response Fixture.quote_body)) =
  (Ok (110000%Z, (-5)%Z),
   mkNet []
     [mkRequest "get" (BASE_URL +:+ "/price_btc/")
        (<["amount_eur" := VStr Scenario.amount_newline]> (<["decimals" := VInt 5]> ∅))]).
Proof. split; vm_compute; reflexivity. Qed.

(** ** Counterexamples to the unamended statements *)

(** C3. A correctly signed response in which btc_address, the text ["123456"],
    is replaced by the number [123456] still verifies. *)
Lemma C3_counterexample :
  lookup_all (Fixture.start_data (VStr "123456")) start_response_fields =
    Some (Fixture.start_values (VStr "123456")) /\
  Fixture.start_data (VStr "123456") !! "sign" =
    Some (VStr (Sign Fixture.key (Fixture.start_values (VStr "123456")) "")) /\
  Fixture.start_data (VStr "123456") !! "btc_address" = Some (VStr "123456") /\
  VInt 123456 <> VStr "123456" /\
  _verify_signature Fixture.client
    (JObj (<["btc_address" := VInt 123456]> (Fixture.start_data (VStr "123456"))))
    start_response_fields = Ok tt.
Proof.
  split; [reflexivity|]. split; [reflexivity|]. split; [reflexivity|].
  split; [discriminate|]. vm_compute. reflexivity.
Qed.

(** C4. [start] returns a response whose btc_address was altered, from the
    signed text ["123456"] to the number [123456], without raising. *)
Lemma C4_counterexample :
  Fixture.json_loads "start:address-as-number" =
    Some (JObj (<["btc_address" := VInt 123456]> (Fixture.start_data (VStr "123456")))) /\
  Fixture.start_data (VStr "123456") !! "sign" =
    Some (VStr (Sign Fixture.key (Fixture.start_values (VStr "123456")) "")) /\
  fst (Scenario.start_call Fixture.json_loads
         (Fixture.net_with (Fixture.ok_response "start:address-as-number"))) =
    Ok (JObj (<["btc_address" := VInt 123456]> (Fixture.start_data (VStr "123456")))).
Proof.
  split; [vm_compute; reflexivity|]. split; [reflexivity|]. vm_compute. reflexivity.
Qed.

(** C10. A response with all designated fields, a numeric nonce and no
    [sign] fails with a type error, not with a key-lookup error. *)
Lemma C10_counterexample :
  Scenario.unsigned_data !! "sign" = None /\
  lookup_all Scenario.unsigned_data start_response_fields =
    Some (Fixture.start_values (VStr "123456")) /\
  _verify_signature Fixture.client (JObj Scenario.unsigned_data) start_response_fields =
    Raise TypeError /\
  ~ (exists k, _verify_signature Fixture.client (JObj Scenario.unsigned_data)
                 start_response_fields = Raise (KeyError k)).
Proof.
  assert (H : _verify_signature Fixture.client (JObj Scenario.unsigned_data)
                start_response_fields = Raise TypeError).
  { apply (verify_bad_nonce Fixture.client) with (vs := Fixture.start_values (VStr "123456"));
      reflexivity. }
  split; [reflexivity|]. split; [reflexivity|]. split; [exact H|].
  intros [k Hk]. rewrite H in Hk. discriminate.
Qed.

(** ** The test suite's scenarios, replayed *)

(** [test_start_invalid_signature]: the address was changed after signing. *)
Example start_rejects_changed_address :
  fst (Scenario.start_call Fixture.json_loads
         (Fixture.net_with (Fixture.ok_response "start:address-changed"))) =
  Raise (InvalidSignature (VStr Fixture.start_sign)).
Proof. vm_compute. reflexivity. Qed.

(** The helper [sign] of the test suite calls [hmac.new] with the joined
    values as key and the API key as message; the client keys the MAC with
    the API key.  The two digests differ on the data of [test_start]. *)
Remark test_helper_swaps_key_and_message :
  hmac_sha256_hex (sign_input (Fixture.start_values (VStr "123456")) "") Fixture.key <>
  Sign Fixture.key (Fixture.start_values (VStr "123456")) "".
Proof. vm_compute. discriminate. Qed.

(** ** Instances *)

(** The signed start response of the test suite verifies. *)
Lemma C3_roundtrip_witness :
  (lookup_all (Fixture.start_data (VStr "123456")) start_response_fields =
     Some (Fixture.start_values (VStr "123456")) /\
   verify_nonce (Fixture.start_data (VStr "123456")) = Some EmptyString /\
   Fixture.start_data (VStr "123456") !! "sign" =
     Some (VStr (Sign (apikey Fixture.client) (Fixture.start_values (VStr "123456")) ""))) /\
  _verify_signature Fixture.client (JObj (Fixture.start_data (VStr "123456")))
    start_response_fields = Ok tt.
Proof.
  assert (H1 : lookup_all (Fixture.start_data (VStr "123456")) start_response_fields =
               Some (Fixture.start_values (VStr "123456"))) by reflexivity.
  assert (H2 : verify_nonce (Fixture.start_data (VStr "123456")) = Some EmptyString)
    by reflexivity.
  assert (H3 : Fixture.start_data (VStr "123456") !! "sign" =
               Some (VStr (Sign (apikey Fixture.client)
                             (Fixture.start_values (VStr "123456")) ""))) by reflexivity.
  split; [auto|].
  exact (proj1 (C3_roundtrip_amended Fixture.client start_response_fields _ _ _ H1 H2 H3)).
Defined.

(** [test_start]: the signed response comes back unchanged. *)
Lemma C4_start_witness :
  (_normalize_amount (VStr "10.00") = Ok "10.00"%string /\
   nonce_text VNone = Some EmptyString /\
   pending (Fixture.net_with (Fixture.ok_response "start:ok")) =
     [Fixture.ok_response "start:ok"] /\
   (200 <= status_code (Fixture.ok_response "start:ok") < 400)%Z /\
   Fixture.json_loads (text (Fixture.ok_response "start:ok")) =
     Some (JObj (Fixture.start_data (VStr "123456")))) /\
  fst (Scenario.start_call Fixture.json_loads
         (Fixture.net_with (Fixture.ok_response "start:ok"))) =
  Ok (JObj (Fixture.start_data (VStr "123456"))).
Proof.
  assert (H1 : _normalize_amount (VStr "10.00") = Ok "10.00"%string) by reflexivity.
  assert (H2 : nonce_text VNone = Some EmptyString) by reflexivity.
  assert (H3 : pending (Fixture.net_with (Fixture.ok_response "start:ok")) =
               [Fixture.ok_response "start:ok"]) by reflexivity.
  assert (H4 : (200 <= status_code (Fixture.ok_response "start:ok") < 400)%Z)
    by (simpl; lia).
  assert (H5 : Fixture.json_loads (text (Fixture.ok_response "start:ok")) =
               Some (JObj (Fixture.start_data (VStr "123456")))) by reflexivity.
  split; [auto 6|].
  destruct (C4_start_amended Fixture.json_loads Fixture.client
              (VStr "10.00") (VStr "Test") (VStr "http://example.com/thankyou")
              (VStr "http://example.com/success_callback") (VInt 1) VNone VNone VNone VNone
              _ _ _ _ _ _ H1 H2 H3 H4 H5) as (_ & _ & Hok & _).
  apply Hok.
  apply (verify_signed Fixture.client) with
    (vs := Fixture.start_values (VStr "123456")) (t := EmptyString); reflexivity.
Defined.


(** [test_price_btc]: the quote for ['500.1'], and the rejection of ['1,0']. *)
Example price_btc_quote_instance :
  fst (price_btc Fixture.json_loads (Z * Z)%type Fixture.Decimal Fixture.client
         (VStr "500.1") 5 (Fixture.net_with (Fixture.ok_response Fixture.quote_body))) =
    Ok (110000%Z, (-5)%Z) /\
  exists message,
    price_btc Fixture.json_loads (Z * Z)%type Fixture.Decimal Fixture.client
      (VStr "1,0") 5 (Fixture.net_with (Fixture.ok_response Fixture.quote_body)) =
    (Raise (ValueError message), Fixture.net_with (Fixture.ok_response Fixture.quote_body)).
Proof.
  split.
  - destruct (price_btc_validates_then_quotes Fixture.json_loads (Z * Z)%type
                Fixture.Decimal Fixture.client (VStr "500.1") 5
                (Fixture.net_with (Fixture.ok_response Fixture.quote_body))) as (_ & Hquote & _).
    rewrite (Hquote (Fixture.ok_response Fixture.quote_body) [] (VStr "1.10000"));
      try reflexivity; simpl; lia.
  - destruct (price_btc_validates_then_quotes Fixture.json_loads (Z * Z)%type
                Fixture.Decimal Fixture.client (VStr "1,0") 5
                (Fixture.net_with (Fixture.ok_response Fixture.quote_body))) as (Hreject & _).
    apply Hreject. left. split; [reflexivity|].
    intros d _ H.
    destruct d as [|c1 [|c2 [|c3 d]]];
      rewrite ?append_cons, ?append_nil_l in H; try discriminate H.
    injection H as _ _ _ H. destruct d; rewrite ?append_cons, ?append_nil_l in H;
      discriminate H.
Qed.


(** The request of a [start] call with nonce [n-1]. *)
Lemma C9_signed_request_witness :
  (start_sign_fields <> [] /\
   sent (snd (_call Fixture.json_loads Fixture.client "/start/" "GET" start_sign_fields
                (start_kwargs "10.00" (VStr "Test") (VStr "http://example.com/thankyou")
                   (VStr "http://example.com/success_callback") (VInt 1)
                   VNone VNone VNone (VStr "n-1"))
                (Fixture.net_with (Fixture.ok_response "start:ok")))) =
   sent (Fixture.net_with (Fixture.ok_response "start:ok")) ++
   [mkRequest "get" (base_url Fixture.client +:+ "/start/")
      (<["sign" := VStr (Sign (apikey Fixture.client)
                           [VStr "10.00"; VStr "Test"; VStr "http://example.com/thankyou";
                            VInt 1] "n-1")]>
         (delete "nonce"
            (start_kwargs "10.00" (VStr "Test") (VStr "http://example.com/thankyou")
               (VStr "http://example.com/success_callback") (VInt 1)
               VNone VNone VNone (VStr "n-1"))))]) /\
  (<["sign" := VStr (Sign (apikey Fixture.client)
                       [VStr "10.00"; VStr "Test"; VStr "http://example.com/thankyou";
                        VInt 1] "n-1")]>
     (delete "nonce"
        (start_kwargs "10.00" (VStr "Test") (VStr "http://example.com/thankyou")
           (VStr "http://example.com/success_callback") (VInt 1)
           VNone VNone VNone (VStr "n-1")))) !! "nonce" = None.
Proof.
  assert (H1 : start_sign_fields <> []) by discriminate.
  assert (H2 :
    sent (snd (_call Fixture.json_loads Fixture.client "/start/" "GET" start_sign_fields
                 (start_kwargs "10.00" (VStr "Test") (VStr "http://example.com/thankyou")
                    (VStr "http://example.com/success_callback") (VInt 1)
                    VNone VNone VNone (VStr "n-1"))
                 (Fixture.net_with (Fixture.ok_response "start:ok")))) =
    sent (Fixture.net_with (Fixture.ok_response "start:ok")) ++
    [mkRequest "get" (base_url Fixture.client +:+ "/start/")
       (<["sign" := VStr (Sign (apikey Fixture.client)
                            [VStr "10.00"; VStr "Test"; VStr "http://example.com/thankyou";
                             VInt 1] "n-1")]>
          (delete "nonce"
             (start_kwargs "10.00" (VStr "Test") (VStr "http://example.com/thankyou")
                (VStr "http://example.com/success_callback") (VInt 1)
                VNone VNone VNone (VStr "n-1"))))]).
  { rewrite call_get. unfold call_params, start_sign_fields.
    rewrite (sign_params_spec Fixture.client _ _
               [VStr "10.00"; VStr "Test"; VStr "http://example.com/thankyou"; VInt 1]
               "n-1"); reflexivity. }
  split; [auto|].
  exact (proj1 (proj2 (C9_signed_request_parameters Fixture.json_loads Fixture.client
                         _ _ _ _ _ _ H1 H2))).
Defined.

(** The start response without url_qrcode, and without sign. *)
Lemma C10_missing_keys_witness :
  (In "url_qrcode"%string start_response_fields /\
   delete "url_qrcode" (Fixture.start_data (VStr "123456")) !! "url_qrcode" = None) /\
  (exists g,
     In g start_response_fields /\
     delete "url_qrcode" (Fixture.start_data (VStr "123456")) !! g = None /\
     _verify_signature Fixture.client
       (JObj (delete "url_qrcode" (Fixture.start_data (VStr "123456"))))
       start_response_fields = Raise (KeyError g)) /\
  (lookup_all (delete "sign" (Fixture.start_data (VStr "123456"))) start_response_fields =
     Some (Fixture.start_values (VStr "123456")) /\
   verify_nonce (delete "sign" (Fixture.start_data (VStr "123456"))) = Some EmptyString /\
   delete "sign" (Fixture.start_data (VStr "123456")) !! "sign" = None) /\
  _verify_signature Fixture.client
    (JObj (delete "sign" (Fixture.start_data (VStr "123456"))))
    start_response_fields = Raise (KeyError "sign").
Proof.
  assert (H1 : In "url_qrcode"%string start_response_fields) by (simpl; auto).
  assert (H2 : delete "url_qrcode" (Fixture.start_data (VStr "123456")) !! "url_qrcode" = None)
    by reflexivity.
  assert (H3 : lookup_all (delete "sign" (Fixture.start_data (VStr "123456")))
                 start_response_fields = Some (Fixture.start_values (VStr "123456")))
    by reflexivity.
  assert (H4 : verify_nonce (delete "sign" (Fixture.start_data (VStr "123456"))) =
               Some EmptyString) by reflexivity.
  assert (H5 : delete "sign" (Fixture.start_data (VStr "123456")) !! "sign" = None)
    by reflexivity.
  split; [auto|]. split; [|split; [auto|]].
  - exact (proj1 (C10_missing_keys_amended Fixture.json_loads (Z * Z)%type Fixture.Decimal
                    Fixture.client _ start_response_fields) _ H1 H2).
  - exact (proj1 (proj2 (C10_missing_keys_amended Fixture.json_loads (Z * Z)%type
                           Fixture.Decimal Fixture.client _ start_response_fields))
             _ _ H3 H4 H5).
Defined.

(** * Further properties of the client *)

(** ** Construction *)

Lemma endswith_slash_app (u : string) : endswith_slash (u +:+ "/") = true.
Proof.
  induction u as [|c u IH]; [reflexivity|].
  rewrite append_cons. simpl. destruct (u +:+ "/") eqn:E; [|assumption].
  destruct u; discriminate.
Qed.

Lemma drop_last_app (u : string) : drop_last (u +:+ "/") = u.
Proof.
  induction u as [|c u IH]; [reflexivity|].
  rewrite append_cons. simpl. destruct (u +:+ "/") eqn:E.
  - destruct u; discriminate.
  - now rewrite IH.
Qed.

(** X1. [PSPClient.__init__] keeps the API key, keeps a base URL that does
    not end in a slash, and removes exactly one trailing slash from one that
    does, so that paths, which start with a slash, attach without doubling
    it. *)
Theorem X1_init_strips_one_trailing_slash (key u : string) :
  apikey (PSPClient_init key u) = key /\
  base_url (PSPClient_init key (u +:+ "/")) = u /\
  (endswith_slash u = false -> base_url (PSPClient_init key u) = u).
Proof.
  unfold PSPClient_init. simpl. split; [reflexivity|]. split.
  - now rewrite endswith_slash_app, drop_last_app.
  - intros H. now rewrite H.
Qed.

(** ** The call helper *)

Section CallHelper.

Variable json_loads : string -> option jval.
Variable self : PSPClient.

Lemma lower_char_idem (c : ascii) : lower_char (lower_char c) = lower_char c.
Proof. destruct c as [[] [] [] [] [] [] [] []]; reflexivity. Qed.

Lemma lower_idem (s : string) : lower (lower s) = lower s.
Proof. induction s as [|c s IH]; simpl; [reflexivity | now rewrite lower_char_idem, IH]. Qed.

(** X2. The HTTP verb is looked up by its lowercased name: the case of
    [method] never matters. *)
Theorem X2_method_case_insensitive (path method : string) (fields : list string)
    (kwargs : gmap string pyval) (n : net) :
  _call json_loads self path method fields kwargs n =
  _call json_loads self path (lower method) fields kwargs n.
Proof. rewrite !call_run, lower_idem. reflexivity. Qed.

(** What [_call] does to the transport: nothing, or one request sent and
    one response taken. *)
Lemma call_net path method fields kwargs n :
  snd (_call json_loads self path method fields kwargs n) = n \/
  exists data,
    call_params self fields kwargs = Ok data /\
    snd (_call json_loads self path method fields kwargs n) =
    mkNet (tl (pending n))
      (sent n ++ [mkRequest (lower method) (base_url self +:+ path) data]).
Proof.
  rewrite call_run.
  destruct (call_params self fields kwargs) as [data|e]; [|now left].
  destruct (existsb (String.eqb (lower method)) request_verbs);
    [|destruct (String.eqb (lower method) "request"); now left].
  right. exists data. split; [reflexivity|].
  destruct (pending n); reflexivity.
Qed.

(** X3. A call without signed fields transmits the keyword arguments exactly
    as given, a [nonce] among them included, to the base URL followed by the
    path. *)
Theorem X3_unsigned_call_transmits_kwargs (path method : string)
    (kwargs : gmap string pyval) (n : net) (q : request) :
  sent (snd (_call json_loads self path method [] kwargs n)) = sent n ++ [q] ->
  req_params q = kwargs /\
  req_url q = base_url self +:+ path /\
  req_verb q = lower method.
Proof.
  intros Hsent.
  destruct (call_net path method [] kwargs n) as [Hn|(data & Hd & Hn)]; rewrite Hn in Hsent.
  - symmetry in Hsent. now apply sent_grows_not_same in Hsent.
  - simpl in Hsent. apply app_inj_tail in Hsent as [_ <-].
    unfold call_params in Hd. inversion Hd; subst. auto.
Qed.

Lemma first_missing_spec data fields f :
  first_missing data fields = Some f -> In f fields /\ data !! f = None.
Proof.
  induction fields as [|g fields IH]; simpl; [discriminate|].
  destruct (data !! g) eqn:Hg.
  - intros H. destruct (IH H). auto.
  - intros H. inversion H; subst. auto.
Qed.

Lemma sign_values_first_missing data fields acc f :
  first_missing data fields = Some f ->
  sign_values data fields acc = Raise (KeyError f).
Proof.
  revert acc. induction fields as [|g fields IH]; intros acc; simpl; [discriminate|].
  destruct (data !! g) eqn:Hg.
  - apply IH.
  - intros H. now inversion H.
Qed.

(** X4. When a signed field is not among the keyword arguments, [_call]
    raises the key error of the first such field, in the order of the field
    list, and sends nothing. *)
Theorem X4_missing_signed_field (path method : string) (fields : list string)
    (kwargs : gmap string pyval) (n : net) (f : string) :
  first_missing kwargs fields = Some f ->
  In f fields /\ kwargs !! f = None /\
  _call json_loads self path method fields kwargs n = (Raise (KeyError f), n).
Proof.
  intros Hf. destruct (first_missing_spec _ _ _ Hf) as [Hin Hnone].
  repeat split; auto. rewrite call_run.
  destruct fields as [|g fields]; [discriminate|].
  unfold call_params, sign_params.
  now rewrite (sign_values_first_missing _ _ _ _ Hf).
Qed.

Lemma sign_params_bad_nonce fields data vs nonce :
  lookup_all data fields = Some vs ->
  data !! "nonce" = Some nonce ->
  nonce_text nonce = None ->
  sign_params self fields data = Raise TypeError.
Proof.
  intros Hvs Hn Ht. unfold sign_params.
  rewrite (sign_values_ok _ _ _ _ Hvs). simpl.
  rewrite Hn. simpl. now rewrite nonce_text_join, Ht.
Qed.

(** X5. A nonce that is true but not text (a number, [True]) cannot be
    joined to the signed values: a signed call raises a type error and sends
    nothing. *)
Theorem X5_nonce_not_text (path method : string) (fields : list string)
    (kwargs : gmap string pyval) (n : net) (vs : list pyval) (nonce : pyval) :
  fields <> [] ->
  lookup_all kwargs fields = Some vs ->
  kwargs !! "nonce" = Some nonce ->
  nonce_text nonce = None ->
  _call json_loads self path method fields kwargs n = (Raise TypeError, n).
Proof.
  intros Hne Hvs Hn Ht. rewrite call_run.
  destruct fields as [|g fields]; [congruence|].
  unfold call_params. now rewrite (sign_params_bad_nonce _ _ _ _ Hvs Hn Ht).
Qed.

End CallHelper.

(** ** The operations and the transport *)

Section OperationsAndTransport.

Variable json_loads : string -> option jval.
Variable dec : Type.
Variable Decimal : pyval -> option dec.
Variable self : PSPClient.

Lemma call_get_net path fields kwargs n :
  snd (_call json_loads self path "GET" fields kwargs n) =
  match call_params self fields kwargs with
  | Raise _ => n
  | Ok data =>
      mkNet (tl (pending n)) (sent n ++ [mkRequest "get" (base_url self +:+ path) data])
  end.
Proof.
  rewrite call_get. destruct (call_params self fields kwargs); [|reflexivity].
  destruct (pending n); reflexivity.
Qed.

Lemma start_net a d us cs m o uf cf nonce n :
  snd (start json_loads self a d us cs m o uf cf nonce n) =
  match _normalize_amount a with
  | Raise _ => n
  | Ok amount =>
      snd (_call json_loads self "/start/" "GET" start_sign_fields
             (start_kwargs amount d us cs m o uf cf nonce) n)
  end.
Proof.
  rewrite start_run. destruct (_normalize_amount a); [|reflexivity].
  destruct (_call _ _ _ _ _ _ n) as [[j|e] n']; reflexivity.
Qed.

Lemma price_btc_net a decimals n :
  snd (price_btc json_loads dec Decimal self a decimals n) =
  match _normalize_amount a with
  | Raise _ => n
  | Ok amount =>
      if (decimals <? 0)%Z then n
      else snd (_call json_loads self "/price_btc/" "GET" []
                  (<["amount_eur" := VStr amount]> (<["decimals" := VInt decimals]> ∅)) n)
  end.
Proof.
  rewrite price_btc_run. destruct (_normalize_amount a); [|reflexivity].
  destruct (decimals <? 0)%Z; [reflexivity|].
  destruct (_call _ _ _ _ _ _ n) as [[[obj|v]|e] n']; reflexivity.
Qed.

Lemma transaction_status_net txid nonce n :
  snd (transaction_status json_loads dec Decimal self txid nonce n) =
  snd (_call json_loads self ("/tx/" +:+ py_str txid +:+ "/status/") "GET" [] ∅ n).
Proof.
  rewrite transaction_status_run.
  destruct (_call _ _ _ _ _ _ n) as [[[obj|v]|e] n']; reflexivity.
Qed.

(** X6. No operation retries or fans out: it leaves the transport as it
    was, or it has sent exactly one request and taken exactly one response
    (none when none was left). *)
Theorem X6_at_most_one_request (o : operation) (n : net) :
  snd (run_operation json_loads dec Decimal self o n) = n \/
  exists q,
    sent (snd (run_operation json_loads dec Decimal self o n)) = sent n ++ [q] /\
    pending (snd (run_operation json_loads dec Decimal self o n)) = tl (pending n).
Proof.
  assert (Hcall : forall path fields kwargs,
    snd (_call json_loads self path "GET" fields kwargs n) = n \/
    exists q,
      sent (snd (_call json_loads self path "GET" fields kwargs n)) = sent n ++ [q] /\
      pending (snd (_call json_loads self path "GET" fields kwargs n)) = tl (pending n)).
  { intros path fields kwargs. rewrite call_get_net.
    destruct (call_params self fields kwargs) as [data|e]; [right|now left].
    eexists. split; reflexivity. }
  destruct o as [a d us cs m o uf cf nonce | a decimals | txid nonce]; simpl.
  - destruct (start json_loads self a d us cs m o uf cf nonce n) as [r n'] eqn:E.
    change n' with (snd (r, n')). rewrite <- E, start_net.
    destruct (_normalize_amount a); [apply Hcall | now left].
  - destruct (price_btc json_loads dec Decimal self a decimals n) as [r n'] eqn:E.
    change n' with (snd (r, n')). rewrite <- E, price_btc_net.
    destruct (_normalize_amount a); [|now left].
    destruct (decimals <? 0)%Z; [now left | apply Hcall].
  - destruct (transaction_status json_loads dec Decimal self txid nonce n) as [r n'] eqn:E.
    change n' with (snd (r, n')). rewrite <- E, transaction_status_net. apply Hcall.
Qed.

Lemma start_call_params amount d us cs m o uf cf nonce :
  call_params self start_sign_fields (start_kwargs amount d us cs m o uf cf nonce) =
  match nonce_text nonce with
  | Some t =>
      Ok (<["sign" := VStr (Sign (apikey self) [VStr amount; d; us; m] t)]>
            (delete "nonce" (start_kwargs amount d us cs m o uf cf nonce)))
  | None => Raise TypeError
  end.
Proof.
  unfold call_params, start_sign_fields.
  destruct (nonce_text nonce) as [t|] eqn:Ht.
  - apply sign_params_spec; [apply start_kwargs_fields | now rewrite start_kwargs_nonce].
  - apply sign_params_bad_nonce with (vs := [VStr amount; d; us; m]) (nonce := nonce);
      [apply start_kwargs_fields | apply start_kwargs_nonce | assumption].
Qed.

(** X7. [start] fails before it sends anything when the amount does not
    match the pattern (invalid argument) or the nonce is true but not text
    (type error); in every other case it sends one GET to the base URL
    followed by [/start/]. *)
Theorem X7_start_sends_or_fails_early (a d us cs m o uf cf nonce : pyval) (n : net) :
  (Re.matches _reg_decimal (py_str a) = false ->
     exists message,
       start json_loads self a d us cs m o uf cf nonce n = (Raise (ValueError message), n)) /\
  (Re.matches _reg_decimal (py_str a) = true -> nonce_text nonce = None ->
     start json_loads self a d us cs m o uf cf nonce n = (Raise TypeError, n)) /\
  (forall t,
     Re.matches _reg_decimal (py_str a) = true -> nonce_text nonce = Some t ->
     exists params,
       snd (start json_loads self a d us cs m o uf cf nonce n) =
       mkNet (tl (pending n))
         (sent n ++ [mkRequest "get" (base_url self +:+ "/start/") params])).
Proof.
  split; [|split].
  - intros Hm. rewrite start_run, (normalize_amount_rejects a Hm). eauto.
  - intros Hm Ht. rewrite start_run, (normalize_amount_accepts a Hm), call_get.
    now rewrite start_call_params, Ht.
  - intros t Hm Ht. rewrite start_net, (normalize_amount_accepts a Hm), call_get_net.
    rewrite start_call_params, Ht. eauto.
Qed.

(** X8. The signature of a [start] request covers the amount, the
    description, url_success, merchant_id and the nonce, and nothing else:
    whatever callback_success, order_id, url_failure and callback_failure
    are, the request carries the same [sign], and carries them as given. *)
Theorem X8_start_signature_skips_callbacks (a d us cs m o uf cf nonce : pyval)
    (n : net) (t : string) :
  Re.matches _reg_decimal (py_str a) = true ->
  nonce_text nonce = Some t ->
  last_request_sign (snd (start json_loads self a d us cs m o uf cf nonce n)) =
    Some (VStr (Sign (apikey self) [VStr (py_str a); d; us; m] t)) /\
  exists q,
    last (sent (snd (start json_loads self a d us cs m o uf cf nonce n))) = Some q /\
    req_params q !! "callback_success" = Some cs /\
    req_params q !! "order_id" = Some o /\
    req_params q !! "url_failure" = Some uf /\
    req_params q !! "callback_failure" = Some cf.
Proof.
  intros Hm Ht. rewrite start_net, (normalize_amount_accepts a Hm), call_get_net.
  rewrite start_call_params, Ht. unfold last_request_sign. simpl.
  rewrite last_snoc. simpl. split; [apply lookup_insert_eq|].
  eexists. split; [reflexivity|]. simpl. repeat split; reflexivity.
Qed.

(** X9. [transaction_status] performs no validation of [txid]: whatever the
    arguments, it sends one GET, without parameters and unsigned, to the base
    URL followed by [/tx/], the string form of [txid] and [/status/]. *)
Theorem X9_transaction_status_request (txid nonce : pyval) (n : net) :
  snd (transaction_status json_loads dec Decimal self txid nonce n) =
  mkNet (tl (pending n))
    (sent n ++ [mkRequest "get" (base_url self +:+ "/tx/" +:+ py_str txid +:+ "/status/") ∅]).
Proof. rewrite transaction_status_net, call_get_net. reflexivity. Qed.

(** X10. A well-formed reply of the wrong shape is not mistaken for a bad
    signature: [start] on a reply that decodes to a bare value raises a type
    error, [transaction_status] on such a reply an attribute error, and
    [price_btc] on a reply that decodes to an object a type error. *)
Theorem X10_wrong_shaped_replies (n : net) (r : response) (rest : list response) :
  pending n = r :: rest ->
  (200 <= status_code r < 400)%Z ->
  (forall v a d us cs m o uf cf nonce t,
     json_loads (text r) = Some (JVal v) ->
     Re.matches _reg_decimal (py_str a) = true -> nonce_text nonce = Some t ->
     fst (start json_loads self a d us cs m o uf cf nonce n) = Raise TypeError) /\
  (forall v txid nonce,
     json_loads (text r) = Some (JVal v) ->
     fst (transaction_status json_loads dec Decimal self txid nonce n) =
     Raise AttributeError) /\
  (forall obj a decimals,
     json_loads (text r) = Some (JObj obj) ->
     Re.matches _reg_decimal (py_str a) = true -> (0 <= decimals)%Z ->
     fst (price_btc json_loads dec Decimal self a decimals n) = Raise TypeError).
Proof.
  intros Hp Hin. split; [|split].
  - intros v a d us cs m o uf cf nonce t Hj Hm Ht.
    now rewrite (start_good_response json_loads self a d us cs m o uf cf nonce n r rest
                   (py_str a) t (JVal v) (normalize_amount_accepts a Hm) Ht Hp Hin Hj).
  - intros v txid nonce Hj. rewrite transaction_status_run, call_get. simpl.
    rewrite Hp. simpl. now rewrite (classify_in_range json_loads r Hin), Hj.
  - intros obj a decimals Hj Hm Hd.
    rewrite price_btc_run, (normalize_amount_accepts a Hm).
    destruct (Z.ltb_spec decimals 0); [lia|].
    rewrite call_get. simpl. rewrite Hp. simpl.
    now rewrite (classify_in_range json_loads r Hin), Hj.
Qed.

(** X11. [start] does not bind the reply to the nonce it sent: with the
    other arguments and the server's replies fixed, the outcome is the same
    for every nonce that is falsy or text. *)
Theorem X11_start_reply_not_bound_to_nonce (a d us cs m o uf cf nonce nonce' : pyval)
    (n : net) (t t' : string) :
  nonce_text nonce = Some t ->
  nonce_text nonce' = Some t' ->
  fst (start json_loads self a d us cs m o uf cf nonce n) =
  fst (start json_loads self a d us cs m o uf cf nonce' n).
Proof.
  intros Ht Ht'. rewrite !start_run.
  destruct (_normalize_amount a) as [amount|e]; [|reflexivity].
  rewrite !call_get, !start_call_params, Ht, Ht'.
  destruct (pending n) as [|r rest]; [reflexivity|]. simpl.
  destruct (classify json_loads r); reflexivity.
Qed.

(** X12. The two argument errors of [price_btc], in the order the checks
    run: a rejected amount gives the amount message whatever [decimals] is; a
    negative [decimals] gives its own message; zero decimals pass, and the
    request carries amount_eur as text and decimals as given. *)
Theorem X12_price_btc_argument_errors (a : pyval) (decimals : Z) (n : net) :
  (Re.matches _reg_decimal (py_str a) = false ->
     price_btc json_loads dec Decimal self a decimals n =
     (Raise (ValueError ("could not parse amount " +:+ py_repr_str (py_str a) +:+
                         ", must be a positive decimal")), n)) /\
  (Re.matches _reg_decimal (py_str a) = true -> (decimals < 0)%Z ->
     price_btc json_loads dec Decimal self a decimals n =
     (Raise (ValueError "decimals must be a positive integer"), n)) /\
  (Re.matches _reg_decimal (py_str a) = true -> (0 <= decimals)%Z ->
     snd (price_btc json_loads dec Decimal self a decimals n) =
     mkNet (tl (pending n))
       (sent n ++ [mkRequest "get" (base_url self +:+ "/price_btc/")
                     (<["amount_eur" := VStr (py_str a)]>
                        (<["decimals" := VInt decimals]> ∅))])).
Proof.
  split; [|split].
  - intros Hm. now rewrite price_btc_run, (normalize_amount_rejects a Hm).
  - intros Hm Hd. rewrite price_btc_run, (normalize_amount_accepts a Hm).
    destruct (Z.ltb_spec decimals 0); [reflexivity | lia].
  - intros Hm Hd. rewrite price_btc_net, (normalize_amount_accepts a Hm).
    destruct (Z.ltb_spec decimals 0); [lia|].
    rewrite call_get_net. reflexivity.
Qed.

Lemma classify_raises r e :
  classify json_loads r = Raise e ->
  e = DecodeError \/ e = ServerError (status_code r) (reason r) (text r).
Proof.
  unfold classify. destruct (in_range (status_code r)).
  - destruct (json_loads (text r)); [discriminate|]. intros H; inversion H; auto.
  - intros H; inversion H; auto.
Qed.

(** X13. [price_btc] checks no signature and reads no key of the reply: it
    never raises InvalidSignature, a key error or an attribute error. *)
Theorem X13_price_btc_never_checks_signature (a : pyval) (decimals : Z) (n : net) :
  (forall s, fst (price_btc json_loads dec Decimal self a decimals n) <>
             Raise (InvalidSignature s)) /\
  (forall k, fst (price_btc json_loads dec Decimal self a decimals n) <>
             Raise (KeyError k)) /\
  fst (price_btc json_loads dec Decimal self a decimals n) <> Raise AttributeError.
Proof.
  assert (H : forall e,
    fst (price_btc json_loads dec Decimal self a decimals n) = Raise e ->
    (exists msg, e = ValueError msg) \/ e = TransportError \/ e = DecodeError \/
    (exists c m b, e = ServerError c m b) \/ e = ConversionError \/ e = TypeError).
  { intros e. rewrite price_btc_run. unfold _normalize_amount.
    destruct (negb (Re.matches _reg_decimal (py_str a))); simpl;
      [intros H; inversion H; eauto|].
    destruct (decimals <? 0)%Z; simpl; [intros H; inversion H; eauto|].
    rewrite call_get. simpl.
    destruct (pending n) as [|r rest]; simpl; [intros H; inversion H; auto|].
    destruct (classify json_loads r) as [[obj|v]|e0] eqn:Hc; simpl.
    - intros H; inversion H; auto 10.
    - intros H. destruct (decimal_of_raises _ _ _ _ H) as [->| ->]; auto 10.
    - intros H; inversion H; subst.
      destruct (classify_raises r e Hc) as [->| ->]; eauto 10. }
  repeat split; intros; intros He; apply H in He;
    destruct He as [(msg & He)|[He|[He|[(c & m & b & He)|[He|He]]]]]; discriminate.
Qed.

End OperationsAndTransport.

(** ** Amounts that are not text *)

Lemma uint_digits (d : Decimal.uint) : all_digits (NilEmpty.string_of_uint d) = true.
Proof. induction d; simpl; auto. Qed.

Lemma nilzero_digits (d : Decimal.uint) :
  all_digits (NilZero.string_of_uint d) = true /\ nonempty (NilZero.string_of_uint d) = true.
Proof.
  destruct d; simpl; try (split; [apply uint_digits | reflexivity]).
  split; reflexivity.
Qed.

Lemma digits_valid (s : string) :
  all_digits s = true -> nonempty s = true -> valid_decimal s = true.
Proof.
  intros Hd Hn. unfold valid_decimal. rewrite (span_digits_all s Hd). now rewrite Hn.
Qed.

(** X14. Amounts given as integers: [_normalize_amount] turns a
    non-negative integer into its decimal digits and accepts it; it rejects
    every negative integer, and [None], [True] and [False]. *)
Theorem X14_normalize_integer_amounts (z : Z) :
  ((0 <= z)%Z ->
     _normalize_amount (VInt z) = Ok (py_str (VInt z)) /\
     valid_decimal (py_str (VInt z)) = true) /\
  ((z < 0)%Z -> exists message, _normalize_amount (VInt z) = Raise (ValueError message)) /\
  (forall v, v = VNone \/ v = VBool true \/ v = VBool false ->
     exists message, _normalize_amount v = Raise (ValueError message)).
Proof.
  split; [|split].
  - intros Hz.
    assert (Hv : valid_decimal (py_str (VInt z)) = true).
    { simpl. unfold str_of_Z. destruct z as [|p|p]; [reflexivity| |lia].
      simpl. destruct (nilzero_digits (Pos.to_uint p)). now apply digits_valid. }
    split; [|exact Hv].
    apply normalize_amount_accepts. now apply valid_decimal_matches.
  - intros Hz. destruct z as [|p|p]; try lia.
    rewrite normalize_amount_rejects; [eauto|].
    rewrite matches_reg_decimal. reflexivity.
  - intros v [->|[->| ->]]; (rewrite normalize_amount_rejects; [eauto | reflexivity]).
Qed.

Lemma has_char_plain (c : ascii) (s : string) :
  plain_text s = true -> (c = squote \/ c = dquote \/ c = bslash) -> has_char c s = false.
Proof.
  intros Hp Hc. induction s as [|x s IH]; [reflexivity|]. simpl in *.
  apply andb_true_iff in Hp as [Hx Hs]. rewrite (IH Hs), orb_false_r.
  unfold plain_char in Hx.
  repeat (apply andb_true_iff in Hx as [Hx ?]).
  destruct Hc as [->|[->| ->]]; rewrite eqb_sym;
    match goal with H : negb ?b = true |- ?b = false => now apply negb_true_iff in H end.
Qed.

Lemma repr_char_plain (c : ascii) :
  plain_char c = true -> repr_char squote c = String c EmptyString.
Proof. destruct c as [[] [] [] [] [] [] [] []]; vm_compute; congruence. Qed.

Lemma repr_plain (s : string) : plain_text s = true -> py_repr_str s = single_quoted s.
Proof.
  intros Hp. unfold py_repr_str, repr_quote, single_quoted.
  rewrite (has_char_plain squote s Hp) by auto. simpl. f_equal. f_equal.
  induction s as [|c s IH]; [reflexivity|]. simpl in *.
  apply andb_true_iff in Hp as [Hc Hs].
  now rewrite (repr_char_plain c Hc), (IH Hs).
Qed.

(** X15. The message of a rejected amount shows the amount itself between
    single quotes whenever its string form is plain printable text without
    quotes or backslashes. *)
Theorem X15_rejection_message_quotes_amount (v : pyval) :
  plain_text (py_str v) = true ->
  Re.matches _reg_decimal (py_str v) = false ->
  _normalize_amount v =
  Raise (ValueError ("could not parse amount " +:+ single_quoted (py_str v) +:+
                     ", must be a positive decimal")).
Proof.
  intros Hp Hm. now rewrite (normalize_amount_rejects v Hm), (repr_plain _ Hp).
Qed.

(** ** What verification looks at *)

Section VerificationScope.

Variable self : PSPClient.

Lemma sign_values_insert_other data fields acc k v :
  ~ In k fields ->
  sign_values (<[k := v]> data) fields acc = sign_values data fields acc.
Proof.
  revert acc. induction fields as [|f fields IH]; intros acc Hk; simpl; [reflexivity|].
  rewrite lookup_insert_ne by (intros ->; apply Hk; now left).
  destruct (data !! f); [|reflexivity].
  apply IH. intros Hin. apply Hk. now right.
Qed.

(** X16. Verification reads the designated fields, [nonce] and [sign], and
    nothing else: setting any other key of the reply, present or not, leaves
    its outcome unchanged. *)
Theorem X16_verification_ignores_other_keys (data : gmap string pyval)
    (fields : list string) (k : string) (v : pyval) :
  ~ In k fields -> k <> "nonce" -> k <> "sign" ->
  _verify_signature self (JObj (<[k := v]> data)) fields =
  _verify_signature self (JObj data) fields.
Proof.
  intros Hk Hn Hs. unfold _verify_signature.
  rewrite sign_values_insert_other by assumption.
  now rewrite !lookup_insert_ne by congruence.
Qed.

(** X17. Verification sees the signed values only through their
    concatenation with the nonce: two replies, even over different field
    lists, that carry the same [sign] and whose values and nonce concatenate
    to the same text have the same outcome.  Text may thus move from the end
    of one signed value to the start of the next. *)
Theorem X17_verification_sees_only_the_joined_text (d1 d2 : gmap string pyval)
    (fields1 fields2 : list string) (vs1 vs2 : list pyval) (t1 t2 : string) :
  lookup_all d1 fields1 = Some vs1 ->
  lookup_all d2 fields2 = Some vs2 ->
  verify_nonce d1 = Some t1 ->
  verify_nonce d2 = Some t2 ->
  sign_input vs1 t1 = sign_input vs2 t2 ->
  d1 !! "sign" = d2 !! "sign" ->
  _verify_signature self (JObj d1) fields1 = _verify_signature self (JObj d2) fields2.
Proof.
  intros H1 H2 Ht1 Ht2 Heq Hs.
  rewrite (verify_spec self _ _ _ _ H1 Ht1), (verify_spec self _ _ _ _ H2 Ht2), Hs.
  unfold Sign. now rewrite Heq.
Qed.

(** X18. Exactly when verification succeeds: all designated fields are
    present, the nonce entry is absent or text, and [sign] is the text of
    the protocol's signature over those values and that nonce. *)
Theorem X18_verification_succeeds_iff (data : gmap string pyval) (fields : list string) :
  _verify_signature self (JObj data) fields = Ok tt <->
  exists vs t,
    lookup_all data fields = Some vs /\
    verify_nonce data = Some t /\
    data !! "sign" = Some (VStr (Sign (apikey self) vs t)).
Proof.
  split.
  - intros H.
    destruct (lookup_all data fields) as [vs|] eqn:Hvs.
    + destruct (verify_nonce data) as [t|] eqn:Ht.
      * rewrite (verify_spec self _ _ _ _ Hvs Ht) in H.
        destruct (data !! "sign") as [received|] eqn:Hs; [|discriminate].
        destruct (py_str_eq (Sign (apikey self) vs t) received) eqn:E; [|discriminate].
        destruct received as [| | |s]; try discriminate.
        apply py_str_eq_text in E. subst s. eauto.
      * rewrite (verify_bad_nonce self _ _ _ Hvs Ht) in H. discriminate.
    + destruct (verify_missing_field self _ _ Hvs) as (f & _ & _ & Hr).
      rewrite Hr in H. discriminate.
  - intros (vs & t & Hvs & Ht & Hs).
    rewrite (verify_spec self _ _ _ _ Hvs Ht), Hs.
    now rewrite (proj2 (py_str_eq_text _ _) eq_refl).
Qed.

(** X19. A [sign] entry that is not text (a number, [null], a boolean)
    never verifies: with the fields present and the nonce usable, the error
    is InvalidSignature carrying that entry. *)
Theorem X19_sign_not_text (data : gmap string pyval) (fields : list string)
    (vs : list pyval) (t : string) (received : pyval) :
  lookup_all data fields = Some vs ->
  verify_nonce data = Some t ->
  data !! "sign" = Some received ->
  (forall s, received <> VStr s) ->
  _verify_signature self (JObj data) fields = Raise (InvalidSignature received).
Proof.
  intros Hvs Ht Hs Hr. rewrite (verify_spec self _ _ _ _ Hvs Ht), Hs.
  destruct received as [| | |s]; try reflexivity. now destruct (Hr s).
Qed.

End VerificationScope.

(** ** The form of a signature *)

Lemma hexlify_length (bs : list N) : String.length (hexlify bs) = (2 * List.length bs)%nat.
Proof. induction bs as [|b bs IH]; simpl; [reflexivity | rewrite IH; lia]. Qed.

Lemma hex_digit_lower (n : N) : (n < 16)%N -> lower_hex_char (hex_digit n) = true.
Proof.
  intros Hn.
  assert (Hall : forallb (fun k => lower_hex_char (hex_digit (N.of_nat k))) (seq 0 16) = true)
    by reflexivity.
  rewrite forallb_forall in Hall.
  rewrite <- (N2Nat.id n). apply Hall. apply in_seq. lia.
Qed.

Lemma hexlify_lower (bs : list N) :
  Forall (fun b => (b < 256)%N) bs -> lower_hex (hexlify bs) = true.
Proof.
  induction 1 as [|b bs Hb _ IH]; [reflexivity|].
  cbn [hexlify lower_hex]. rewrite IH, andb_true_r.
  rewrite !hex_digit_lower; [reflexivity | | ].
  - apply N.mod_lt. discriminate.
  - apply N.Div0.div_lt_upper_bound. exact Hb.
Qed.

Lemma be_bytes_bound (k : nat) (x : N) : Forall (fun b => (b < 256)%N) (SHA256.be_bytes k x).
Proof.
  induction k as [|k IH]; simpl; constructor; [|exact IH].
  apply N.mod_lt. discriminate.
Qed.

Lemma be_bytes_length (k : nat) (x : N) : List.length (SHA256.be_bytes k x) = k.
Proof. induction k as [|k IH]; simpl; [reflexivity | now rewrite IH]. Qed.

Lemma sha256_digest_shape (msg : list N) :
  List.length (SHA256.digest msg) = 32%nat /\
  Forall (fun b => (b < 256)%N) (SHA256.digest msg).
Proof.
  unfold SHA256.digest.
  generalize (SHA256.blocks
                (List.length (SHA256.be_words (SHA256.pad msg)) / 16)
                SHA256.H0 (SHA256.be_words (SHA256.pad msg))) as h.
  intros h. split.
  - rewrite !length_app, !be_bytes_length. reflexivity.
  - repeat (apply Forall_app; split); apply be_bytes_bound.
Qed.

(** X20. Whatever the key and the signed values, a signature, as attached to
    a request and as expected on a reply, is made of exactly 64 lowercase
    hexadecimal digits. *)
Theorem X20_signature_is_64_lowercase_hex (key : string) (values : list pyval)
    (nonce : string) :
  String.length (Sign key values nonce) = 64%nat /\
  lower_hex (Sign key values nonce) = true.
Proof.
  unfold Sign, hmac_sha256_hex, HMAC.digest.
  destruct (sha256_digest_shape
              (HMAC.xor_with 92%N (HMAC.block_key (bytes_of_string key)) ++
               SHA256.digest
                 (HMAC.xor_with 54%N (HMAC.block_key (bytes_of_string key)) ++
                  bytes_of_string (sign_input values nonce)))) as [Hlen Hb].
  split.
  - now rewrite hexlify_length, Hlen.
  - now apply hexlify_lower.
Qed.

(** ** Instances of the further properties *)

(** The default base URL, with and without a trailing slash. *)
Lemma X1_init_witness :
  endswith_slash BASE_URL = false /\
  base_url (PSPClient_init "k" BASE_URL) = BASE_URL /\
  base_url (PSPClient_init "k" (BASE_URL +:+ "/")) = BASE_URL.
Proof.
  assert (H : endswith_slash BASE_URL = false) by reflexivity.
  split; [exact H|]. split.
  - exact (proj2 (proj2 (X1_init_strips_one_trailing_slash "k" BASE_URL)) H).
  - exact (proj1 (proj2 (X1_init_strips_one_trailing_slash "k" BASE_URL))).
Defined.

(** An unsigned call that is given a nonce transmits it. *)
Lemma X3_unsigned_call_witness :
  sent (snd (_call Fixture.json_loads Fixture.client "/price_btc/" "GET" []
               (<["amount_eur" := VStr "500"]> (<["nonce" := VStr "n-1"]> ∅)) Extra.idle)) =
  sent Extra.idle ++
  [mkRequest "get" (base_url Fixture.client +:+ "/price_btc/")
     (<["amount_eur" := VStr "500"]> (<["nonce" := VStr "n-1"]> ∅))] /\
  req_params
    (mkRequest "get" (base_url Fixture.client +:+ "/price_btc/")
       (<["amount_eur" := VStr "500"]> (<["nonce" := VStr "n-1"]> ∅))) =
  <["amount_eur" := VStr "500"]> (<["nonce" := VStr "n-1"]> ∅).
Proof.
  assert (H : sent (snd (_call Fixture.json_loads Fixture.client "/price_btc/" "GET" []
                           (<["amount_eur" := VStr "500"]> (<["nonce" := VStr "n-1"]> ∅))
                           Extra.idle)) =
              sent Extra.idle ++
              [mkRequest "get" (base_url Fixture.client +:+ "/price_btc/")
                 (<["amount_eur" := VStr "500"]> (<["nonce" := VStr "n-1"]> ∅))])
    by reflexivity.
  split; [exact H|].
  exact (proj1 (X3_unsigned_call_transmits_kwargs Fixture.json_loads Fixture.client
                  _ _ _ _ _ H)).
Defined.

(** A signed call whose description is missing. *)
Lemma X4_missing_signed_field_witness :
  first_missing
    (delete "description"
       (start_kwargs "10.00" (VStr "Test") (VStr "u") (VStr "c") (VInt 1)
          VNone VNone VNone VNone))
    start_sign_fields = Some "description"%string /\
  _call Fixture.json_loads Fixture.client "/start/" "GET" start_sign_fields
    (delete "description"
       (start_kwargs "10.00" (VStr "Test") (VStr "u") (VStr "c") (VInt 1)
          VNone VNone VNone VNone)) Extra.idle =
  (Raise (KeyError "description"), Extra.idle).
Proof.
  assert (H : first_missing
                (delete "description"
                   (start_kwargs "10.00" (VStr "Test") (VStr "u") (VStr "c") (VInt 1)
                      VNone VNone VNone VNone))
                start_sign_fields = Some "description"%string) by reflexivity.
  split; [exact H|].
  exact (proj2 (proj2 (X4_missing_signed_field Fixture.json_loads Fixture.client
                         "/start/" "GET" _ _ Extra.idle _ H))).
Defined.

(** A signed call with the nonce 5. *)
Lemma X5_nonce_not_text_witness :
  (start_sign_fields <> [] /\
   lookup_all
     (start_kwargs "10.00" (VStr "Test") (VStr "u") (VStr "c") (VInt 1)
        VNone VNone VNone (VInt 5))
     start_sign_fields = Some [VStr "10.00"; VStr "Test"; VStr "u"; VInt 1] /\
   start_kwargs "10.00" (VStr "Test") (VStr "u") (VStr "c") (VInt 1)
     VNone VNone VNone (VInt 5) !! "nonce" = Some (VInt 5) /\
   nonce_text (VInt 5) = None) /\
  _call Fixture.json_loads Fixture.client "/start/" "GET" start_sign_fields
    (start_kwargs "10.00" (VStr "Test") (VStr "u") (VStr "c") (VInt 1)
       VNone VNone VNone (VInt 5)) Extra.idle =
  (Raise TypeError, Extra.idle).
Proof.
  assert (H1 : start_sign_fields <> []) by discriminate.
  assert (H2 : lookup_all
                 (start_kwargs "10.00" (VStr "Test") (VStr "u") (VStr "c") (VInt 1)
                    VNone VNone VNone (VInt 5))
                 start_sign_fields = Some [VStr "10.00"; VStr "Test"; VStr "u"; VInt 1])
    by reflexivity.
  assert (H3 : start_kwargs "10.00" (VStr "Test") (VStr "u") (VStr "c") (VInt 1)
                 VNone VNone VNone (VInt 5) !! "nonce" = Some (VInt 5)) by reflexivity.
  assert (H4 : nonce_text (VInt 5) = None) by reflexivity.
  split; [auto|].
  exact (X5_nonce_not_text Fixture.json_loads Fixture.client "/start/" "GET" _ _
           Extra.idle _ _ H1 H2 H3 H4).
Defined.

(** [start] with the nonce 5, and with the amount -1. *)
Lemma X7_start_witness :
  (Re.matches _reg_decimal (py_str (VStr "10.00")) = true /\ nonce_text (VInt 5) = None) /\
  Extra.start_with (VStr "c") VNone (VInt 5) Extra.idle = (Raise TypeError, Extra.idle) /\
  Re.matches _reg_decimal (py_str (VInt (-1))) = false /\
  exists message,
    start Fixture.json_loads Fixture.client (VInt (-1)) (VStr "Test") (VStr "u") (VStr "c")
      (VInt 1) VNone VNone VNone VNone Extra.idle =
    (Raise (ValueError message), Extra.idle).
Proof.
  assert (H1 : Re.matches _reg_decimal (py_str (VStr "10.00")) = true) by reflexivity.
  assert (H2 : nonce_text (VInt 5) = None) by reflexivity.
  assert (H3 : Re.matches _reg_decimal (py_str (VInt (-1))) = false) by reflexivity.
  split; [auto|]. split; [|split; [exact H3|]].
  - exact (proj1 (proj2 (X7_start_sends_or_fails_early Fixture.json_loads Fixture.client
                           (VStr "10.00") (VStr "Test") (VStr "http://example.com/thankyou")
                           (VStr "c") (VInt 1) VNone VNone VNone (VInt 5) Extra.idle))
             H1 H2).
  - exact (proj1 (X7_start_sends_or_fails_early Fixture.json_loads Fixture.client
                    (VInt (-1)) (VStr "Test") (VStr "u") (VStr "c") (VInt 1)
                    VNone VNone VNone VNone Extra.idle) H3).
Defined.

(** The signature of the test suite's [start] request, for any callback. *)
Lemma X8_start_signature_witness :
  (Re.matches _reg_decimal (py_str (VStr "10.00")) = true /\
   nonce_text VNone = Some EmptyString) /\
  last_request_sign (snd (Extra.start_with (VStr "http://evil.example/cb") (VInt 7) VNone
                            Extra.idle)) =
  Some (VStr (Sign (apikey Fixture.client)
                [VStr (py_str (VStr "10.00")); VStr "Test";
                 VStr "http://example.com/thankyou"; VInt 1] "")).
Proof.
  assert (H1 : Re.matches _reg_decimal (py_str (VStr "10.00")) = true) by reflexivity.
  assert (H2 : nonce_text VNone = Some EmptyString) by reflexivity.
  split; [auto|].
  exact (proj1 (X8_start_signature_skips_callbacks Fixture.json_loads Fixture.client
                  (VStr "10.00") (VStr "Test") (VStr "http://example.com/thankyou")
                  (VStr "http://evil.example/cb") (VInt 1) (VInt 7) VNone VNone VNone
                  Extra.idle "" H1 H2)).
Defined.

(** A status query answered with a bare JSON string. *)
Lemma X10_wrong_shape_witness :
  (pending (Fixture.net_with (Fixture.ok_response Fixture.quote_body)) =
     [Fixture.ok_response Fixture.quote_body] /\
   (200 <= status_code (Fixture.ok_response Fixture.quote_body) < 400)%Z /\
   Fixture.json_loads (text (Fixture.ok_response Fixture.quote_body)) =
     Some (JVal (VStr "1.10000"))) /\
  fst (transaction_status Fixture.json_loads (Z * Z)%type Fixture.Decimal Fixture.client
         (VStr "123456") VNone (Fixture.net_with (Fixture.ok_response Fixture.quote_body))) =
  Raise AttributeError.
Proof.
  assert (H1 : pending (Fixture.net_with (Fixture.ok_response Fixture.quote_body)) =
               [Fixture.ok_response Fixture.quote_body]) by reflexivity.
  assert (H2 : (200 <= status_code (Fixture.ok_response Fixture.quote_body) < 400)%Z)
    by (simpl; lia).
  assert (H3 : Fixture.json_loads (text (Fixture.ok_response Fixture.quote_body)) =
               Some (JVal (VStr "1.10000"))) by reflexivity.
  split; [auto|].
  exact (proj1 (proj2 (X10_wrong_shaped_replies Fixture.json_loads (Z * Z)%type
                         Fixture.Decimal Fixture.client _ _ _ H1 H2))
           (VStr "1.10000") (VStr "123456") VNone H3).
Defined.

(** [start] without a nonce and with the nonce ["abc"], same reply. *)
Lemma X11_start_nonce_witness :
  (nonce_text VNone = Some EmptyString /\ nonce_text (VStr "abc") = Some "abc"%string) /\
  fst (Extra.start_with (VStr "c") VNone VNone
         (Fixture.net_with (Fixture.ok_response "start:ok"))) =
  fst (Extra.start_with (VStr "c") VNone (VStr "abc")
         (Fixture.net_with (Fixture.ok_response "start:ok"))).
Proof.
  assert (H1 : nonce_text VNone = Some EmptyString) by reflexivity.
  assert (H2 : nonce_text (VStr "abc") = Some "abc"%string) by reflexivity.
  split; [auto|].
  exact (X11_start_reply_not_bound_to_nonce Fixture.json_loads Fixture.client
           (VStr "10.00") (VStr "Test") (VStr "http://example.com/thankyou") (VStr "c")
           (VInt 1) VNone VNone VNone VNone (VStr "abc") _ _ _ H1 H2).
Defined.

(** A quote for 500 with -1 decimals. *)
Lemma X12_price_btc_witness :
  (Re.matches _reg_decimal (py_str (VStr "500")) = true /\ (-1 < 0)%Z) /\
  price_btc Fixture.json_loads (Z * Z)%type Fixture.Decimal Fixture.client
    (VStr "500") (-1) Extra.idle =
  (Raise (ValueError "decimals must be a positive integer"), Extra.idle).
Proof.
  assert (H1 : Re.matches _reg_decimal (py_str (VStr "500")) = true) by reflexivity.
  assert (H2 : (-1 < 0)%Z) by lia.
  split; [auto|].
  exact (proj1 (proj2 (X12_price_btc_argument_errors Fixture.json_loads (Z * Z)%type
                         Fixture.Decimal Fixture.client (VStr "500") (-1) Extra.idle))
           H1 H2).
Defined.

(** The integer amounts 500 and -1. *)
Lemma X14_integer_amounts_witness :
  ((0 <= 500)%Z /\ _normalize_amount (VInt 500) = Ok (py_str (VInt 500))) /\
  ((-1 < 0)%Z /\ exists message, _normalize_amount (VInt (-1)) = Raise (ValueError message)).
Proof.
  assert (H1 : (0 <= 500)%Z) by lia.
  assert (H2 : (-1 < 0)%Z) by lia.
  split; split; [exact H1| |exact H2|].
  - exact (proj1 (proj1 (X14_normalize_integer_amounts 500) H1)).
  - exact (proj1 (proj2 (X14_normalize_integer_amounts (-1))) H2).
Defined.

(** The amount ['1,0'] of the test suite. *)
Lemma X15_rejection_message_witness :
  (plain_text (py_str (VStr "1,0")) = true /\
   Re.matches _reg_decimal (py_str (VStr "1,0")) = false) /\
  _normalize_amount (VStr "1,0") =
  Raise (ValueError ("could not parse amount " +:+ single_quoted (py_str (VStr "1,0")) +:+
                     ", must be a positive decimal")).
Proof.
  assert (H1 : plain_text (py_str (VStr "1,0")) = true) by reflexivity.
  assert (H2 : Re.matches _reg_decimal (py_str (VStr "1,0")) = false) by reflexivity.
  split; [auto|].
  exact (X15_rejection_message_quotes_amount (VStr "1,0") H1 H2).
Defined.

(** The start reply with an extra key. *)
Lemma X16_other_keys_witness :
  (~ In "expires"%string start_response_fields /\
   "expires"%string <> "nonce"%string /\ "expires"%string <> "sign"%string) /\
  _verify_signature Fixture.client
    (JObj (<["expires" := VInt 60]> (Fixture.start_data (VStr "123456"))))
    start_response_fields =
  _verify_signature Fixture.client (JObj (Fixture.start_data (VStr "123456")))
    start_response_fields.
Proof.
  assert (H1 : ~ In "expires"%string start_response_fields).
  { simpl. intros [H|[H|[H|[H|[]]]]]; discriminate. }
  assert (H2 : "expires"%string <> "nonce"%string) by discriminate.
  assert (H3 : "expires"%string <> "sign"%string) by discriminate.
  split; [auto|].
  exact (X16_verification_ignores_other_keys Fixture.client _ _ _ _ H1 H2 H3).
Defined.

(** The start reply with a character moved from btc_address to url_qrcode. *)
Lemma X17_joined_text_witness :
  (lookup_all Extra.shifted_data start_response_fields =
     Some [VStr "http://test.bitmymoney.com/tx/1234/"; VStr "12345";
           VStr "6http://test.bitmymoney.com/tx/1234/qrcode.png";
           VStr "http://test.bitmymoney.com/tx/1234/status"] /\
   lookup_all (Fixture.start_data (VStr "123456")) start_response_fields =
     Some (Fixture.start_values (VStr "123456")) /\
   verify_nonce Extra.shifted_data = Some EmptyString /\
   verify_nonce (Fixture.start_data (VStr "123456")) = Some EmptyString /\
   sign_input [VStr "http://test.bitmymoney.com/tx/1234/"; VStr "12345";
               VStr "6http://test.bitmymoney.com/tx/1234/qrcode.png";
               VStr "http://test.bitmymoney.com/tx/1234/status"] "" =
   sign_input (Fixture.start_values (VStr "123456")) "" /\
   Extra.shifted_data !! "sign" = Fixture.start_data (VStr "123456") !! "sign") /\
  _verify_signature Fixture.client (JObj Extra.shifted_data) start_response_fields =
  _verify_signature Fixture.client (JObj (Fixture.start_data (VStr "123456")))
    start_response_fields.
Proof.
  assert (H1 : lookup_all Extra.shifted_data start_response_fields =
               Some [VStr "http://test.bitmymoney.com/tx/1234/"; VStr "12345";
                     VStr "6http://test.bitmymoney.com/tx/1234/qrcode.png";
                     VStr "http://test.bitmymoney.com/tx/1234/status"]) by reflexivity.
  assert (H2 : lookup_all (Fixture.start_data (VStr "123456")) start_response_fields =
               Some (Fixture.start_values (VStr "123456"))) by reflexivity.
  assert (H3 : verify_nonce Extra.shifted_data = Some EmptyString) by reflexivity.
  assert (H4 : verify_nonce (Fixture.start_data (VStr "123456")) = Some EmptyString)
    by reflexivity.
  assert (H5 : sign_input [VStr "http://test.bitmymoney.com/tx/1234/"; VStr "12345";
                           VStr "6http://test.bitmymoney.com/tx/1234/qrcode.png";
                           VStr "http://test.bitmymoney.com/tx/1234/status"] "" =
               sign_input (Fixture.start_values (VStr "123456")) "") by reflexivity.
  assert (H6 : Extra.shifted_data !! "sign" = Fixture.start_data (VStr "123456") !! "sign")
    by reflexivity.
  split; [auto 10|].
  exact (X17_verification_sees_only_the_joined_text Fixture.client _ _ _ _ _ _ _ _
           H1 H2 H3 H4 H5 H6).
Defined.

(** The start reply with ["sign": null]. *)
Lemma X19_sign_not_text_witness :
  (lookup_all (<["sign" := VNone]> (Fixture.start_data (VStr "123456")))
     start_response_fields = Some (Fixture.start_values (VStr "123456")) /\
   verify_nonce (<["sign" := VNone]> (Fixture.start_data (VStr "123456"))) =
     Some EmptyString /\
   <["sign" := VNone]> (Fixture.start_data (VStr "123456")) !! "sign" = Some VNone /\
   (forall s, VNone <> VStr s)) /\
  _verify_signature Fixture.client
    (JObj (<["sign" := VNone]> (Fixture.start_data (VStr "123456"))))
    start_response_fields = Raise (InvalidSignature VNone).
Proof.
  assert (H1 : lookup_all (<["sign" := VNone]> (Fixture.start_data (VStr "123456")))
                 start_response_fields = Some (Fixture.start_values (VStr "123456")))
    by reflexivity.
  assert (H2 : verify_nonce (<["sign" := VNone]> (Fixture.start_data (VStr "123456"))) =
               Some EmptyString) by reflexivity.
  assert (H3 : <["sign" := VNone]> (Fixture.start_data (VStr "123456")) !! "sign" =
               Some VNone) by reflexivity.
  assert (H4 : forall s, VNone <> VStr s) by discriminate.
  split; [auto|].
  exact (X19_sign_not_text Fixture.client _ _ _ _ _ H1 H2 H3 H4).
Defined.

(** The signed start reply of the test suite verifies. *)
Lemma X18_verification_witness :
  (lookup_all (Fixture.start_data (VStr "123456")) start_response_fields =
     Some (Fixture.start_values (VStr "123456")) /\
   verify_nonce (Fixture.start_data (VStr "123456")) = Some EmptyString /\
   Fixture.start_data (VStr "123456") !! "sign" =
     Some (VStr (Sign (apikey Fixture.client) (Fixture.start_values (VStr "123456")) ""))) /\
  _verify_signature Fixture.client (JObj (Fixture.start_data (VStr "123456")))
    start_response_fields = Ok tt.
Proof.
  assert (H : lookup_all (Fixture.start_data (VStr "123456")) start_response_fields =
                Some (Fixture.start_values (VStr "123456")) /\
              verify_nonce (Fixture.start_data (VStr "123456")) = Some EmptyString /\
              Fixture.start_data (VStr "123456") !! "sign" =
                Some (VStr (Sign (apikey Fixture.client)
                              (Fixture.start_values (VStr "123456")) "")))
    by (repeat split; reflexivity).
  split; [exact H|].
  apply (proj2 (X18_verification_succeeds_iff Fixture.client _ _)).
  exists (Fixture.start_values (VStr "123456")), EmptyString. exact H.
Defined.
